(** * SurfCheck: the buoy and forecast normalisation pipeline

    A shallow embedding of [scripts/fetch_forecast.py]: the sentinel-aware
    numeric filter, the two fixed-layout text decoders of the NDBC feeds, the
    merge of the spectral density and direction series, the sweep over
    candidate GFS-Wave runs and the extraction of the per-hour records.

    Python values are modelled as follows.
    - [str] is [string]; a character is a code point below 256.
    - [float] is an IEEE 754 binary64 number, [spec_float] of the Standard
      Library at precision 53 and maximal exponent 1024, with its correctly
      rounded division and its comparisons (which are all false on NaN).
    - [None] is the [None] of [option].
    - an exception is the [Raise] outcome of the [result] type. *)

From Stdlib Require Import ZArith List Bool Ascii String Lia.
From Stdlib Require Import Floats.SpecFloat.
Import ListNotations.

Local Open Scope string_scope.
Local Open Scope list_scope.

(** ** Exceptions *)

Inductive exn : Type :=
| IndexError
| ZeroDivisionError
| SystemExit (status : Z).

Inductive result (A : Type) : Type :=
| Ok (a : A)
| Raise (e : exn).

Arguments Ok {A} a.
Arguments Raise {A} e.

Definition bind {A B : Type} (m : result A) (k : A -> result B) : result B :=
  match m with
  | Ok a => k a
  | Raise e => Raise e
  end.

Notation "x <- m ;; k" := (bind m (fun x => k))
  (at level 61, m at next level, right associativity).

(** [l[i]] for a non-negative literal index. *)
Definition index {A : Type} (l : list A) (i : nat) : result A :=
  match nth_error l i with
  | Some a => Ok a
  | None => Raise IndexError
  end.

(** ** Text *)

Module Str.

Definition code (c : ascii) : N := N_of_ascii c.

(** [str.isspace] on one character. *)
Definition isspace (c : ascii) : bool :=
  let n := code c in
  ((9 <=? n) && (n <=? 13) || (28 <=? n) && (n <=? 32)
   || (n =? 133) || (n =? 160))%N.

(** The line boundaries of [str.splitlines]. *)
Definition is_linebreak (c : ascii) : bool :=
  let n := code c in
  ((10 <=? n) && (n <=? 13) || (28 <=? n) && (n <=? 30) || (n =? 133))%N.

Definition is_digit (c : ascii) : bool :=
  let n := code c in ((48 <=? n) && (n <=? 57))%N.

Definition digit_value (c : ascii) : Z := Z.of_N (code c) - 48.

(** ASCII lower-casing, as the case-insensitive comparisons of the
    number parser need it. *)
Definition lower (c : ascii) : ascii :=
  let n := code c in
  if ((65 <=? n) && (n <=? 90))%N then ascii_of_N (n + 32) else c.

Fixpoint lstrip (s : string) : string :=
  match s with
  | EmptyString => EmptyString
  | String c s' => if isspace c then lstrip s' else s
  end.

Fixpoint rstrip (s : string) : string :=
  match s with
  | EmptyString => EmptyString
  | String c s' =>
      match rstrip s' with
      | EmptyString => if isspace c then EmptyString else String c EmptyString
      | r => String c r
      end
  end.

Definition strip (s : string) : string := rstrip (lstrip s).

(** [s.splitlines()]: the text between line boundaries, a carriage return
    followed by a line feed counting as one boundary; no empty last line. *)
Fixpoint splitlines (s : string) : list string :=
  match s with
  | EmptyString => []
  | String c s' =>
      if is_linebreak c then
        EmptyString ::
          match s' with
          | String c' s'' =>
              if ((code c =? 13) && (code c' =? 10))%N
              then splitlines s'' else splitlines s'
          | EmptyString => []
          end
      else
        match splitlines s' with
        | [] => [String c EmptyString]
        | l :: ls => String c l :: ls
        end
  end.

Definition cons_word (w : string) (ws : list string) : list string :=
  match w with
  | EmptyString => ws
  | _ => w :: ws
  end.

(** The word that starts the text (empty when the text starts with
    white space) and the words after it. *)
Fixpoint split_from (s : string) : string * list string :=
  match s with
  | EmptyString => (EmptyString, [])
  | String c s' =>
      let (w, ws) := split_from s' in
      if isspace c then (EmptyString, cons_word w ws) else (String c w, ws)
  end.

(** [s.split()]: the maximal runs of characters that are not white space. *)
Definition split (s : string) : list string :=
  let (w, ws) := split_from s in cons_word w ws.

(** [s.replace(old, new)] for a one-character [old]. *)
Fixpoint replace (old : ascii) (new : string) (s : string) : string :=
  match s with
  | EmptyString => EmptyString
  | String c s' =>
      if Ascii.eqb c old then new ++ replace old new s'
      else String c (replace old new s')
  end.

End Str.

(** ** Floating-point numbers *)

Module Float.

Definition prec : Z := 53.
Definition emax : Z := 1024.

Definition float : Type := spec_float.

Definition zero : float := S754_zero false.
Definition nan : float := S754_nan.
Definition infinity (neg : bool) : float := S754_infinity neg.

(** The binary64 number nearest to [n / d] (ties to even), with sign
    [neg]; the quotient is rounded once, from the exact remainder. *)
Definition of_ratio (neg : bool) (n d : positive) : float :=
  SFdiv prec emax (S754_finite neg n 0) (S754_finite false d 0).

(** The binary64 number nearest to [m * 10 ^ e], for [0 <= m]. *)
Definition of_decimal (neg : bool) (m e : Z) : float :=
  match m with
  | Zpos p =>
      match e with
      | Zneg k => of_ratio neg p (Pos.pow 10 k)
      | Z0 => of_ratio neg p 1
      | Zpos k => of_ratio neg (p * Pos.pow 10 k) 1
      end
  | _ => S754_zero neg
  end.

(** Comparisons: [a == b], [a < b], [a > b]. *)
Definition eqb (a b : float) : bool := SFeqb a b.
Definition ltb (a b : float) : bool := SFltb a b.
Definition gtb (a b : float) : bool := SFltb b a.
Definition leb (a b : float) : bool := SFleb a b.

(** [bool(a)]: a float is false exactly when it equals zero. *)
Definition truthy (a : float) : bool := negb (eqb a zero).

(** [a / b]; Python raises on a zero divisor instead of returning an
    infinity or a NaN. *)
Definition div (a b : float) : result float :=
  if eqb b zero then Raise ZeroDivisionError else Ok (SFdiv prec emax a b).

(** [a + b] *)
Definition add (a b : float) : float := SFadd prec emax a b.

(** The integer nearest to [n / d], ties to even, for [0 <= n]. *)
Definition div_nearest_even (n : Z) (d : positive) : Z :=
  let q := Z.div n (Zpos d) in
  let r := Z.modulo n (Zpos d) in
  match Z.compare (2 * r) (Zpos d) with
  | Lt => q
  | Gt => q + 1
  | Eq => if Z.even q then q else q + 1
  end.

Fixpoint pow10 (n : nat) : positive :=
  match n with
  | O => 1
  | S k => 10 * pow10 k
  end.

(** [round(x, ndigits)] for [0 <= ndigits]: the exact value of [x] is
    rounded to [ndigits] decimals, ties to even, and the decimal obtained is
    converted back to the nearest binary64 number.  A number that is not
    finite is returned as it is, and so is one without fractional bits; the
    sign of a zero result is that of [x]. *)
Definition round (x : float) (ndigits : nat) : float :=
  match x with
  | S754_finite s m (Zneg k) =>
      let scale := pow10 ndigits in
      match div_nearest_even (Zpos (m * scale)) (Pos.pow 2 k) with
      | Zpos p => of_ratio s p scale
      | _ => S754_zero s
      end
  | _ => x
  end.

(** *** [float(text)] *)

(** The white space [float] strips from both ends of its argument. *)
Definition isspace (c : ascii) : bool :=
  let n := Str.code c in
  ((9 <=? n) && (n <=? 13) || (n =? 32) || (n =? 133) || (n =? 160))%N.

Fixpoint lstrip (s : string) : string :=
  match s with
  | EmptyString => EmptyString
  | String c s' => if isspace c then lstrip s' else s
  end.

Fixpoint rstrip (s : string) : string :=
  match s with
  | EmptyString => EmptyString
  | String c s' =>
      match rstrip s' with
      | EmptyString => if isspace c then EmptyString else String c EmptyString
      | r => String c r
      end
  end.

Definition is_underscore (c : ascii) : bool := (Str.code c =? 95)%N.

(** An underscore is legal between two digits only; legal underscores are
    dropped.  [prev] is the character before [s], if any. *)
Fixpoint drop_underscores (prev : option ascii) (s : string) : option string :=
  match s with
  | EmptyString =>
      match prev with
      | Some p => if is_underscore p then None else Some EmptyString
      | None => Some EmptyString
      end
  | String c s' =>
      if is_underscore c then
        match prev with
        | Some p => if Str.is_digit p then drop_underscores (Some c) s' else None
        | None => None
        end
      else
        let after_underscore :=
          match prev with Some p => is_underscore p | None => false end in
        if after_underscore && negb (Str.is_digit c) then None
        else option_map (String c) (drop_underscores (Some c) s')
  end.

Definition sign (s : string) : bool * string :=
  match s with
  | String "-" s' => (true, s')
  | String "+" s' => (false, s')
  | _ => (false, s)
  end.

(** The digits that start [s]: their value on top of [acc], their number on
    top of [n], and what follows them. *)
Fixpoint digits (acc n : Z) (s : string) : Z * Z * string :=
  match s with
  | String c s' =>
      if Str.is_digit c
      then digits (10 * acc + Str.digit_value c) (n + 1) s'
      else (acc, n, s)
  | EmptyString => (acc, n, s)
  end.

(** A decimal literal without sign, as a mantissa and a power of ten. *)
Definition parse_decimal (s : string) : option (Z * Z) :=
  let '(ip, ni, r1) := digits 0 0 s in
  let '(m, nf, r2) :=
    match r1 with
    | String "." r => digits ip 0 r
    | _ => (ip, 0%Z, r1)
    end in
  if (ni + nf =? 0)%Z then None
  else
    match r2 with
    | EmptyString => Some (m, (- nf)%Z)
    | String c r3 =>
        if Ascii.eqb (Str.lower c) "e" then
          let (eneg, r4) := sign r3 in
          let '(ev, ne, r5) := digits 0 0 r4 in
          if (ne =? 0)%Z then None
          else
            match r5 with
            | EmptyString => Some (m, ((if eneg then - ev else ev) - nf)%Z)
            | _ => None
            end
        else None
    end.

Fixpoint lower_all (s : string) : string :=
  match s with
  | EmptyString => EmptyString
  | String c s' => String (Str.lower c) (lower_all s')
  end.

Definition parse_inf_or_nan (neg : bool) (s : string) : option float :=
  let t := lower_all s in
  if String.eqb t "inf" || String.eqb t "infinity" then Some (infinity neg)
  else if String.eqb t "nan" then Some nan
  else None.

(** [float(s)] for a string [s]; [None] stands for the [ValueError], the
    one exception the conversion of a string raises. *)
Definition of_string (s : string) : option float :=
  match drop_underscores None (rstrip (lstrip s)) with
  | None => None
  | Some t =>
      let (neg, u) := sign t in
      match parse_decimal u with
      | Some (m, e) => Some (of_decimal neg m e)
      | None => parse_inf_or_nan neg u
      end
  end.

(** A float literal of the source, by its text. *)
Definition literal (s : string) : float :=
  match of_string s with
  | Some f => f
  | None => nan
  end.

End Float.

Definition float : Type := Float.float.

(** ** Helpers *)

(** [MISSING_VALS = {99.0, 999.0, 9999.0, 99.00, 999.00}].  A set of floats
    is modelled by the list of its elements as written; membership is
    equality with one of them, which no NaN satisfies. *)
Definition MISSING_VALS : list float :=
  [Float.literal "99.0"; Float.literal "999.0"; Float.literal "9999.0";
   Float.literal "99.00"; Float.literal "999.00"].

Definition mem (f : float) (s : list float) : bool :=
  existsb (Float.eqb f) s.

(** [safe_float(val, missing_extra=None)].  [val] is a string at every call,
    so the conversion raises a [ValueError] or nothing, and the handler turns
    it into [None].  The default [None] and the empty set are both false as a
    condition; [[]] stands for either. *)
Definition safe_float (val : string) (missing_extra : list float) : option float :=
  match Float.of_string val with
  | None => None
  | Some f =>
      if mem f MISSING_VALS then None
      else if negb (Nat.eqb (List.length missing_extra) 0) && mem f missing_extra
           then None
           else Some f
  end.

Definition safe_float_wave (val : string) : option float :=
  let f := safe_float val [Float.literal "9.9"] in
  match f with
  | Some x => if Float.gtb x (Float.literal "8.0") then None else f
  | None => f
  end.

(** ** Part 1: the NDBC buoy *)

(** The record [parse_stdmet] returns, its keys in the order of the source. *)
Record Reading : Type := {
  time : string;
  waveHeight_m : option float;
  dominantPeriod_s : option float;
  avgPeriod_s : option float;
  meanDirection_deg : option float;
  waterTemp_C : option float;
  windSpeed_mps : option float;
  windDir_deg : option float;
  pressure_hPa : option float;
  gust_mps : option float;
  airTemp_C : option float
}.

(** [f"{row[0]}-{row[1]}-{row[2]}T{row[3]}:{row[4]}Z"] *)
Definition time_string (row : list string) : result string :=
  r0 <- index row 0 ;;
  r1 <- index row 1 ;;
  r2 <- index row 2 ;;
  r3 <- index row 3 ;;
  r4 <- index row 4 ;;
  Ok (r0 ++ "-" ++ r1 ++ "-" ++ r2 ++ "T" ++ r3 ++ ":" ++ r4 ++ "Z")%string.

(** [safe_float(row[i])] *)
Definition field (row : list string) (i : nat) : result (option float) :=
  v <- index row i ;; Ok (safe_float v []).

(** [safe_float(row[i]) if len(row) > i else None] *)
Definition optional_field (row : list string) (i : nat) : result (option float) :=
  if Nat.ltb i (List.length row) then field row i else Ok None.

Definition parse_stdmet (text : string) : result (option Reading) :=
  let lines := Str.splitlines (Str.strip text) in
  if Nat.ltb (List.length lines) 3 then Ok None
  else
    l0 <- index lines 0 ;;
    let header := Str.split (Str.replace "#" "" l0) in
    l2 <- index lines 2 ;;
    let row := Str.split l2 in
    if Nat.ltb (List.length row) 13 then Ok None
    else
      t <- time_string row ;;
      r8 <- index row 8 ;;
      dpd <- field row 9 ;;
      apd <- field row 10 ;;
      mwd <- field row 11 ;;
      wtmp <- optional_field row 14 ;;
      wspd <- field row 6 ;;
      wdir <- field row 5 ;;
      pres <- field row 12 ;;
      gst <- field row 7 ;;
      atmp <- optional_field row 13 ;;
      Ok (Some {| time := t;
                  waveHeight_m := safe_float_wave r8;
                  dominantPeriod_s := dpd;
                  avgPeriod_s := apd;
                  meanDirection_deg := mwd;
                  waterTemp_C := wtmp;
                  windSpeed_mps := wspd;
                  windDir_deg := wdir;
                  pressure_hPa := pres;
                  gust_mps := gst;
                  airTemp_C := atmp |}).

(** One entry of the list [parse_data_spec] returns. *)
Record SpectralBin : Type := {
  freq : float;
  period_s : option float;
  energy : float;
  direction_deg : float
}.

(** A [for] loop over a list, its body updating the loop state or raising. *)
Fixpoint for_each {A S : Type} (l : list A) (body : S -> A -> result S) (s : S)
  : result S :=
  match l with
  | [] => Ok s
  | a :: l' => s' <- body s a ;; for_each l' body s'
  end.

(** The loop that fills [freqs]: a token the filter rejects appends nothing. *)
Definition parse_freqs (tokens : list string) : list float :=
  fold_left
    (fun freqs p =>
       match safe_float p [] with
       | Some f => freqs ++ [f]
       | None => freqs
       end)
    tokens [].

(** The loops that fill [densities] and [directions]: every token appends
    its filtered value, absent or not. *)
Definition parse_values (tokens : list string) : list (option float) :=
  fold_left (fun values v => values ++ [safe_float v []]) tokens [].

(** The body of the merging loop at index [i].  [freqs] holds numbers only,
    so the test [freqs[i] is not None] of the source always passes. *)
Definition merge_step (freqs : list float) (densities directions : list (option float))
    (entries : list SpectralBin) (i : nat) : result (list SpectralBin) :=
  di <- index densities i ;;
  match di with
  | None => Ok entries
  | Some d =>
      ri <- index directions i ;;
      match ri with
      | None => Ok entries
      | Some r =>
          f <- index freqs i ;;
          period <- (if Float.gtb f Float.zero
                     then p <- Float.div (Float.literal "1.0") f ;; Ok (Some p)
                     else Ok None) ;;
          Ok (entries ++
              [{| freq := Float.round f 4;
                  period_s :=
                    match period with
                    | Some p =>
                        if Float.truthy p then Some (Float.round p 1) else None
                    | None => None
                    end;
                  energy := Float.round d 2;
                  direction_deg := Float.round r 1 |}])
      end
  end.

Definition min3 (a b c : nat) : nat := Nat.min a (Nat.min b c).

Definition merge (freqs : list float) (densities directions : list (option float))
  : result (list SpectralBin) :=
  for_each (seq 0 (min3 (List.length freqs) (List.length densities) (List.length directions)))
    (merge_step freqs densities directions) [].

(** The header tokens: [line.replace("#", "").replace("(", " ")
    .replace(")", " ").split()]. *)
Definition header_tokens (line : string) : list string :=
  Str.split (Str.replace ")" " " (Str.replace "(" " " (Str.replace "#" "" line))).

Definition parse_data_spec (spec_text swdir_text : string)
  : result (list SpectralBin) :=
  let spec_lines := Str.splitlines (Str.strip spec_text) in
  let swdir_lines := Str.splitlines (Str.strip swdir_text) in
  if Nat.ltb (List.length spec_lines) 3 || Nat.ltb (List.length swdir_lines) 3 then Ok []
  else
    h0 <- index spec_lines 0 ;;
    let spec_header := header_tokens h0 in
    s2 <- index spec_lines 2 ;;
    let spec_row := Str.split s2 in
    w2 <- index swdir_lines 2 ;;
    let swdir_row := Str.split w2 in
    if Nat.ltb (List.length spec_row) 7 || Nat.ltb (List.length swdir_row) 7 then Ok []
    else
      time_str <- time_string spec_row ;;
      h1 <- index spec_lines 1 ;;
      let freq_parts := header_tokens h1 in
      let freqs := parse_freqs (skipn 5 freq_parts) in
      let densities := parse_values (skipn 5 spec_row) in
      let directions := parse_values (skipn 5 swdir_row) in
      merge freqs densities directions.

(** ** Part 2: the GFS-Wave forecast *)

Definition NOMADS_BASE : string :=
  "https://nomads.ncep.noaa.gov/dods/wave/gfswave".
Definition TARGET_LAT : float := Float.literal "41.003".
Definition TARGET_LON : float := Float.literal "-71.6".

Definition CYCLES : list string := ["12"; "06"; "00"].

Definition FORECAST_VARS : list string :=
  ["htsgwsfc"; "perpwsfc"; "dirpwsfc"; "wvhgtsfc"; "wvpersfc"; "wvdirsfc";
   "swell_1"; "swper_1"; "swdir_1"; "swell_2"; "swper_2"; "swdir_2";
   "wndspdsfc"; "wnddirsfc"].

(** [f"{NOMADS_BASE}/{date_str}/gfswave.global.0p16_{cycle}z"] *)
Definition run_url (date_str cycle : string) : string :=
  (NOMADS_BASE ++ "/" ++ date_str ++ "/gfswave.global.0p16_" ++ cycle ++ "z")%string.

(** A dictionary from variable names to optional numbers, in insertion
    order: assigning to a key that is present replaces its value in place. *)
Definition dict : Type := list (string * option float).

Fixpoint dict_get (d : dict) (k : string) : option (option float) :=
  match d with
  | [] => None
  | (k', v) :: d' => if String.eqb k' k then Some v else dict_get d' k
  end.

Fixpoint dict_set (d : dict) (k : string) (v : option float) : dict :=
  match d with
  | [] => [(k, v)]
  | (k', v') :: d' =>
      if String.eqb k' k then (k, v) :: d' else (k', v') :: dict_set d' k v
  end.

(** One entry of [hours]: the key ["time"] and the variables read.  The key
    ["time"] differs from every variable name and is kept apart. *)
Record ForecastHour : Type := {
  hour_time : string;
  hour_vars : dict
}.

(** [url.split("/")[-1]]: what follows the last slash. *)
Fixpoint last_segment (s : string) : string :=
  match s with
  | EmptyString => EmptyString
  | String c s' =>
      if existsb (Ascii.eqb "/") (list_ascii_of_string s') then last_segment s'
      else if Ascii.eqb c "/" then s' else s
  end.

Section Forecast.

(** What [xarray] and the NOMADS server are to the script: an opened
    dataset, the state of the remote side, and the call that opens a run,
    [None] standing for any [Exception] it raises. *)
Variable Dataset : Type.
Variable World : Type.
Variable open_dataset : string -> World -> option Dataset * World.

(** [(now - timedelta(days=day_offset)).strftime("%Y%m%d")] *)
Variable date_str : nat -> string.

(** The time axis of the selected grid point and its variables, each a
    number per time step; [str_time] is [str(t)].  The axis is taken to hold
    every instant once, so that [sel(time=t)] selects one number. *)
Variable Timestamp : Type.
Variable str_time : Timestamp -> string.

Record Point : Type := {
  time_values : list Timestamp;
  data_var : string -> option (Timestamp -> float)
}.

(** [ds.sel(lat=..., lon=..., method="nearest")] *)
Variable sel_nearest : Dataset -> float -> float -> Point.

(** The variables of the sweep: [ds], [url], the remote state and the
    calls made so far, each with whether it opened.  [ds] and [url] are
    unbound before the first call and never read before it. *)
Record Sweep : Type := {
  ds : option Dataset;
  url : string;
  world : World;
  probes : list (string * bool)
}.

(** The loop over [cycle]: [break] on the first run that opens. *)
Fixpoint try_cycles (date : string) (cycles : list string) (st : Sweep) : Sweep :=
  match cycles with
  | [] => st
  | cycle :: rest =>
      let u := run_url date cycle in
      match open_dataset u (world st) with
      | (Some d, w) =>
          {| ds := Some d; url := u; world := w;
             probes := probes st ++ [(u, true)] |}
      | (None, w) =>
          try_cycles date rest
            {| ds := None; url := u; world := w;
               probes := probes st ++ [(u, false)] |}
      end
  end.

(** The loop over [day_offset]: [break] once [ds is not None]. *)
Fixpoint try_days (days : list nat) (st : Sweep) : Sweep :=
  match days with
  | [] => st
  | day_offset :: rest =>
      let st' := try_cycles (date_str day_offset) CYCLES st in
      match ds st' with
      | Some _ => st'
      | None => try_days rest st'
      end
  end.

Definition sweep (w : World) : Sweep :=
  try_days (seq 0 3) {| ds := None; url := EmptyString; world := w; probes := [] |}.

(** Lines 209 to 229: the run found, or [sys.exit(1)]. *)
Definition locate_run (w : World) : result (Dataset * string) :=
  let st := sweep w in
  match ds st with
  | None => Raise (SystemExit 1)
  | Some d => Ok (d, url st)
  end.

(** The loop over [var] for one time step. *)
Definition read_vars (p : Point) (t : Timestamp) : dict :=
  fold_left
    (fun rec var =>
       match data_var p var with
       | Some series =>
           let val := series t in
           dict_set rec var
             (if Float.eqb val val then Some (Float.round val 2) else None)
       | None => rec
       end)
    FORECAST_VARS [].

(** [if rec.get("htsgwsfc") and rec["htsgwsfc"] > 8.0: rec["htsgwsfc"] = None] *)
Definition validate_wave_height (rec : dict) : dict :=
  match dict_get rec "htsgwsfc" with
  | Some (Some h) =>
      if Float.truthy h && Float.gtb h (Float.literal "8.0")
      then dict_set rec "htsgwsfc" None
      else rec
  | _ => rec
  end.

Definition extract_hour (p : Point) (t : Timestamp) : ForecastHour :=
  {| hour_time := str_time t;
     hour_vars := validate_wave_height (read_vars p t) |}.

Definition extract_hours (p : Point) : list ForecastHour :=
  fold_left (fun hours t => hours ++ [extract_hour p t]) (time_values p) [].

(** The record written to [forecast.json]; its key ["fetched"], the time
    of writing, is left out. *)
Record Forecast : Type := {
  model : string;
  run : string;
  lat : float;
  lon : float;
  hours : list ForecastHour
}.

(** [fetch_forecast()], given whether [import xarray] succeeds.  A result
    [Ok] is the record written to the file; on [Raise] nothing is written. *)
Definition fetch_forecast (xarray_installed : bool) (w : World) : result Forecast :=
  if negb xarray_installed then Raise (SystemExit 1)
  else
    found <- locate_run w ;;
    let (d, u) := found in
    let gfs_lon := Float.add (Float.literal "360") TARGET_LON in
    let ds_point := sel_nearest d TARGET_LAT gfs_lon in
    Ok {| model := "GFS-Wave";
          run := last_segment u;
          lat := TARGET_LAT;
          lon := TARGET_LON;
          hours := extract_hours ds_point |}.

End Forecast.

Arguments time_values {Timestamp} p.
Arguments data_var {Timestamp} p var.
Arguments Build_Point {Timestamp} time_values data_var.
Arguments ds {Dataset World} s.
Arguments url {Dataset World} s.
Arguments world {Dataset World} s.
Arguments probes {Dataset World} s.
Arguments try_cycles {Dataset World} open_dataset date cycles st.
Arguments try_days {Dataset World} open_dataset date_str days st.
Arguments sweep {Dataset World} open_dataset date_str w.
Arguments locate_run {Dataset World} open_dataset date_str w.
Arguments read_vars {Timestamp} p t.
Arguments extract_hour {Timestamp} str_time p t.
Arguments extract_hours {Timestamp} str_time p.
Arguments fetch_forecast {Dataset World} open_dataset date_str {Timestamp} str_time
  sel_nearest xarray_installed w.

(** ** Part 1, continued: the parser of the alpha1 file and the buoy fetch *)

(** [parse_spectral(text)]: the row of line 2 is split and its time is
    formatted, and [entries] is returned as it was created. *)
Definition parse_spectral (text : string) : result (list SpectralBin) :=
  let lines := Str.splitlines (Str.strip text) in
  if Nat.ltb (List.length lines) 3 then Ok []
  else
    l2 <- index lines 2 ;;
    let row := Str.split l2 in
    if Nat.ltb (List.length row) 7 then Ok []
    else
      time_str <- time_string row ;;
      let entries := [] in
      Ok entries.

Definition BUOY : string := "44097".
Definition NDBC_BASE : string := "https://www.ndbc.noaa.gov/data/realtime2".

(** [f"{NDBC_BASE}/{BUOY}.txt"] and its two companions. *)
Definition buoy_url (extension : string) : string :=
  (NDBC_BASE ++ "/" ++ BUOY ++ extension)%string.

(** The record [fetch_buoy] writes to [buoy.json] and returns; its key
    ["fetched"], the time of writing, is left out. *)
Record BuoyRecord : Type := {
  buoy : string;
  stdmet : option Reading;
  spectral : list SpectralBin
}.

(** How a fetch ends when it does not return: with the exception that
    [fetch_text] raised for a URL, or with one raised while parsing. *)
Inductive failure : Type :=
| FetchFailed (url : string)
| Uncaught (e : exn).

Inductive outcome (A : Type) : Type :=
| Done (a : A)
| Failed (f : failure).

Arguments Done {A} a.
Arguments Failed {A} f.

(** [except Exception] catches every exception of the model but the one of
    [sys.exit]. *)
Definition is_exception (e : exn) : bool :=
  match e with
  | SystemExit _ => false
  | _ => true
  end.

Section Buoy.

(** The remote side: its state, and [fetch_text], [None] standing for any
    exception the download raises. *)
Variable World : Type.
Variable fetch_text : string -> World -> option string * World.

(** The variables of [fetch_buoy] once the [try] block is left: [spectral],
    an exception the block let through, the remote state and the URLs
    requested so far, in order. *)
Record Fetch : Type := {
  spectral_bins : list SpectralBin;
  escaped : option exn;
  remote : World;
  requests : list string
}.

(** The [try] block.  [spectral] is assigned by its last statement only. *)
Definition fetch_spectral (w : World) (requested : list string) : Fetch :=
  let u1 := buoy_url ".data_spec" in
  match fetch_text u1 w with
  | (None, w1) =>
      {| spectral_bins := []; escaped := None; remote := w1; requests := requested ++ [u1] |}
  | (Some spec_text, w1) =>
      let u2 := buoy_url ".swdir" in
      match fetch_text u2 w1 with
      | (None, w2) =>
          {| spectral_bins := []; escaped := None; remote := w2;
             requests := requested ++ [u1; u2] |}
      | (Some swdir_text, w2) =>
          match parse_data_spec spec_text swdir_text with
          | Ok entries =>
              {| spectral_bins := entries; escaped := None; remote := w2;
                 requests := requested ++ [u1; u2] |}
          | Raise e =>
              {| spectral_bins := [];
                 escaped := if is_exception e then None else Some e;
                 remote := w2;
                 requests := requested ++ [u1; u2] |}
          end
      end
  end.

(** [fetch_buoy()]: [Done r] when [r] was written and returned. *)
Definition fetch_buoy (w : World) : outcome BuoyRecord * World * list string :=
  let u0 := buoy_url ".txt" in
  match fetch_text u0 w with
  | (None, w0) => (Failed (FetchFailed u0), w0, [u0])
  | (Some stdmet_text, w0) =>
      match parse_stdmet stdmet_text with
      | Raise e => (Failed (Uncaught e), w0, [u0])
      | Ok reading =>
          let st := fetch_spectral w0 [u0] in
          match escaped st with
          | Some e => (Failed (Uncaught e), remote st, requests st)
          | None =>
              (Done {| buoy := BUOY; stdmet := reading; spectral := spectral_bins st |},
               remote st, requests st)
          end
      end
  end.

End Buoy.

Arguments spectral_bins {World} f.
Arguments escaped {World} f.
Arguments remote {World} f.
Arguments requests {World} f.
Arguments fetch_spectral {World} fetch_text w requested.
Arguments fetch_buoy {World} fetch_text w.

(** ** The station list: [scripts/update_stations.py] *)

Module Stations.

(** What a call of this script can raise. *)
Inductive error : Type :=
| ValueError
| IndexError.

Inductive raised (A : Type) : Type :=
| Returns (a : A)
| Raises (e : error).

Arguments Returns {A} a.
Arguments Raises {A} e.

Definition and_then {A B : Type} (m : raised A) (k : A -> raised B) : raised B :=
  match m with
  | Returns a => k a
  | Raises e => Raises e
  end.

Definition item {A : Type} (l : list A) (i : nat) : raised A :=
  match nth_error l i with
  | Some a => Returns a
  | None => Raises IndexError
  end.

(** *** More of [str] *)

(** The piece before the first separator and the pieces after it. *)
Fixpoint split_at (sep : ascii) (s : string) : string * list string :=
  match s with
  | EmptyString => (EmptyString, [])
  | String c s' =>
      let (piece, pieces) := split_at sep s' in
      if Ascii.eqb c sep then (EmptyString, piece :: pieces)
      else (String c piece, pieces)
  end.

(** [s.split(sep)] for a one-character [sep]: never an empty list. *)
Definition split_on (sep : ascii) (s : string) : list string :=
  let (piece, pieces) := split_at sep s in piece :: pieces.

(** [str.lower] on a code point below 256. *)
Definition lower_char (c : ascii) : ascii :=
  let n := Str.code c in
  if ((65 <=? n) && (n <=? 90) || (192 <=? n) && (n <=? 222) && negb (n =? 215))%N
  then ascii_of_N (n + 32) else c.

Fixpoint lower (s : string) : string :=
  match s with
  | EmptyString => EmptyString
  | String c s' => String (lower_char c) (lower s')
  end.

(** [sub in s] *)
Fixpoint contains (sub s : string) : bool :=
  String.prefix sub s
  || match s with
     | EmptyString => false
     | String _ s' => contains sub s'
     end.

(** [s in BUOY_TYPES] for a set of strings written as a list. *)
Definition member (s : string) (set : list string) : bool :=
  existsb (String.eqb s) set.

(** [a * b] on binary64 numbers. *)
Definition mul (a b : float) : float := SFmul Float.prec Float.emax a b.

(** *** The script *)

Definition BUOY_TYPES : list string :=
  ["3-meter discus buoy"; "buoy"; "atlas buoy"; "dart ii"; "dart 4g";
   "6-meter nomad"; "discus buoy"; "6-meter foam buoy";
   "self-contained ocean observing payload";
   "ocean racing buoy"; "wave rider"; "waverider"; "datawell";
   "3-meter foam buoy"; "ocean buoy"].

(** The character class [[\d.]]. *)
Definition is_coordinate_char (c : ascii) : bool :=
  Str.is_digit c || Ascii.eqb c ".".

(** The longest prefix whose characters satisfy [p], and what follows. *)
Fixpoint span (p : ascii -> bool) (s : string) : string * string :=
  match s with
  | EmptyString => (EmptyString, EmptyString)
  | String c s' =>
      if p c then let (a, b) := span p s' in (String c a, b)
      else (EmptyString, s)
  end.

Definition is_empty (s : string) : bool :=
  match s with
  | EmptyString => true
  | _ => false
  end.

(** [re.match(r'([\d.]+)\s*([NS])\s+([\d.]+)\s*([EW])', loc_str)]: the groups
    1 to 4 of the match, if there is one.  Each repetition is followed by a
    character outside its class, so the longest run is the only one that can
    match and nothing is gained by giving characters back. *)
Definition match_location (loc_str : string)
  : option (string * ascii * string * ascii) :=
  let (g1, r1) := span is_coordinate_char loc_str in
  if is_empty g1 then None
  else
    let (_, r2) := span Str.isspace r1 in
    match r2 with
    | EmptyString => None
    | String h1 r3 =>
        if Ascii.eqb h1 "N" || Ascii.eqb h1 "S" then
          let (w2, r4) := span Str.isspace r3 in
          if is_empty w2 then None
          else
            let (g3, r5) := span is_coordinate_char r4 in
            if is_empty g3 then None
            else
              let (_, r6) := span Str.isspace r5 in
              match r6 with
              | EmptyString => None
              | String h3 _ =>
                  if Ascii.eqb h3 "E" || Ascii.eqb h3 "W"
                  then Some (g1, h1, g3, h3)
                  else None
              end
        else None
    end.

(** [float(text)], raising. *)
Definition to_float (text : string) : raised float :=
  match Float.of_string text with
  | Some f => Returns f
  | None => Raises ValueError
  end.

(** [parse_location(loc_str)]: the pair [(lat, lon)], or [(None, None)]. *)
Definition parse_location (loc_str : string) : raised (option float * option float) :=
  match match_location loc_str with
  | None => Returns (None, None)
  | Some (g1, h1, g3, h3) =>
      and_then (to_float g1) (fun x =>
      let lat := mul x (if Ascii.eqb h1 "N" then Float.literal "1" else Float.literal "-1") in
      and_then (to_float g3) (fun y =>
      let lon := mul y (if Ascii.eqb h3 "E" then Float.literal "1" else Float.literal "-1") in
      Returns (Some lat, Some lon)))
  end.

(** One entry of [stations]. *)
Record Station : Type := {
  id : string;
  name : string;
  type : string;
  lat : float;
  lon : float
}.

(** The test on the type of a station: [false] where the source says
    [continue]. *)
Definition is_buoy_type (ttype : string) : bool :=
  if is_empty ttype || negb (member (lower ttype) BUOY_TYPES) then
    if negb (contains "buoy" (lower ttype)) && negb (contains "dart" (lower ttype))
       && negb (contains "rider" (lower ttype))
    then false
    else true
  else true.

(** The body of the loop over the lines: the list with the station of the
    line appended, or the list as it was. *)
Definition add_station (stations : list Station) (line : string)
  : raised (list Station) :=
  if String.prefix "#" line || is_empty (Str.strip line) then Returns stations
  else
    let parts := split_on "|" line in
    if Nat.ltb (List.length parts) 7 then Returns stations
    else
      and_then (item parts 0) (fun p0 =>
      let sid := Str.strip p0 in
      and_then (item parts 2) (fun p2 =>
      let ttype := Str.strip p2 in
      and_then (item parts 4) (fun p4 =>
      let name := Str.strip p4 in
      and_then (item parts 6) (fun p6 =>
      let loc_raw := Str.strip p6 in
      if negb (is_buoy_type ttype) then Returns stations
      else
        and_then (item (split_on "(" loc_raw) 0) (fun before =>
        let loc_simple := Str.strip before in
        and_then (parse_location loc_simple) (fun location =>
        match location with
        | (Some lat, Some lon) =>
            if Float.eqb lat Float.zero && Float.eqb lon Float.zero
            then Returns stations
            else
              Returns
                (stations ++
                 [{| id := sid;
                     name := if is_empty name then sid else name;
                     type := ttype;
                     lat := Float.round lat 3;
                     lon := Float.round lon 3 |}])
        | _ => Returns stations
        end))))))
  .

Fixpoint each_line (lines : list string) (stations : list Station)
  : raised (list Station) :=
  match lines with
  | [] => Returns stations
  | line :: rest =>
      and_then (add_station stations line) (each_line rest)
  end.

(** The list [main] writes to [stations.json] for the table [text]. *)
Definition stations_of (text : string) : raised (list Station) :=
  each_line (Str.splitlines text) [].

End Stations.

(** ** Reference definitions

    What the properties below are stated against: the sentinel values, the
    record a data row stands for, the bin a triple of values stands for, the
    two ways to combine three aligned series, and the candidate runs. *)

Definition is_sentinel (f : float) : Prop :=
  Float.eqb f (Float.literal "99") = true
  \/ Float.eqb f (Float.literal "999") = true
  \/ Float.eqb f (Float.literal "9999") = true.

Definition in_extra (f : float) (extra : list float) : Prop :=
  exists e, In e extra /\ Float.eqb f e = true.

Definition CEILING : float := Float.literal "8.0".

(** The lines a text holds once stripped. *)
Definition text_lines (text : string) : list string :=
  Str.splitlines (Str.strip text).

Definition column (row : list string) (i : nat) : string := nth i row EmptyString.

Definition optional_column (row : list string) (i : nat) : option float :=
  match nth_error row i with
  | Some v => safe_float v []
  | None => None
  end.

(** The reading a row of at least 13 fields stands for. *)
Definition reading_of_row (row : list string) : option Reading :=
  if Nat.ltb (List.length row) 13 then None
  else
    Some {| time := (column row 0 ++ "-" ++ column row 1 ++ "-" ++ column row 2
                     ++ "T" ++ column row 3 ++ ":" ++ column row 4 ++ "Z")%string;
            waveHeight_m := safe_float_wave (column row 8);
            dominantPeriod_s := safe_float (column row 9) [];
            avgPeriod_s := safe_float (column row 10) [];
            meanDirection_deg := safe_float (column row 11) [];
            waterTemp_C := optional_column row 14;
            windSpeed_mps := safe_float (column row 6) [];
            windDir_deg := safe_float (column row 5) [];
            pressure_hPa := safe_float (column row 12) [];
            gust_mps := safe_float (column row 7) [];
            airTemp_C := optional_column row 13 |}.

(** The reading of the [n]-th line of a text, if the text has one. *)
Definition reading_of_line (text : string) (n : nat) : option Reading :=
  match nth_error (text_lines text) n with
  | Some l => reading_of_row (Str.split l)
  | None => None
  end.

(** The quotient [1.0 / f] of two binary64 numbers. *)
Definition reciprocal (f : float) : float :=
  SFdiv Float.prec Float.emax (Float.literal "1.0") f.

(** The period the source derives for a frequency. *)
Definition period_of (f : float) : option float :=
  if Float.gtb f Float.zero then
    if Float.truthy (reciprocal f) then Some (Float.round (reciprocal f) 1)
    else None
  else None.

Definition bin_of (f d r : float) : SpectralBin :=
  {| freq := Float.round f 4;
     period_s := period_of f;
     energy := Float.round d 2;
     direction_deg := Float.round r 1 |}.

(** Positional combination that skips an index with an absent value and
    goes on with the next one. *)
Fixpoint zip_present (freqs : list float) (densities directions : list (option float))
  : list SpectralBin :=
  match freqs, densities, directions with
  | f :: fs, Some d :: ds, Some r :: rs => bin_of f d r :: zip_present fs ds rs
  | _ :: fs, _ :: ds, _ :: rs => zip_present fs ds rs
  | _, _, _ => []
  end.

(** Positional combination that stops at the first index where a series is
    exhausted or a value is absent. *)
Fixpoint zip_until_gap (freqs : list float) (densities directions : list (option float))
  : list SpectralBin :=
  match freqs, densities, directions with
  | f :: fs, Some d :: ds, Some r :: rs => bin_of f d r :: zip_until_gap fs ds rs
  | _, _, _ => []
  end.

(** The three series [parse_data_spec] aligns, as functions of its inputs. *)
Definition frequency_series (spec_text : string) : list float :=
  match nth_error (text_lines spec_text) 1 with
  | Some l => parse_freqs (skipn 5 (header_tokens l))
  | None => []
  end.

Definition value_series (text : string) : list (option float) :=
  match nth_error (text_lines text) 2 with
  | Some l => parse_values (skipn 5 (Str.split l))
  | None => []
  end.

(** The data row of a text: the fields of its line 2. *)
Definition data_row (text : string) : list string :=
  match nth_error (text_lines text) 2 with
  | Some l => Str.split l
  | None => []
  end.

(** The tokens of a header line that pass the filter, in order. *)
Fixpoint kept (tokens : list string) : list float :=
  match tokens with
  | [] => []
  | t :: ts =>
      match safe_float t [] with
      | Some f => f :: kept ts
      | None => kept ts
      end
  end.

(** The nine candidate runs in the order of the sweep. *)
Definition candidates (date_str : nat -> string) : list string :=
  [run_url (date_str 0) "12"; run_url (date_str 0) "06"; run_url (date_str 0) "00";
   run_url (date_str 1) "12"; run_url (date_str 1) "06"; run_url (date_str 1) "00";
   run_url (date_str 2) "12"; run_url (date_str 2) "06"; run_url (date_str 2) "00"].

Section FirstSuccess.

Variable Dataset : Type.
Variable World : Type.
Variable open_dataset : string -> World -> option Dataset * World.

(** An ordered sweep that stops at the first success: the dataset and URL
    found, if any, and the calls made, each with whether it opened. *)
Fixpoint first_success (urls : list string) (w : World)
  : option (Dataset * string) * list (string * bool) :=
  match urls with
  | [] => (None, [])
  | u :: rest =>
      match open_dataset u w with
      | (Some d, _) => (Some (d, u), [(u, true)])
      | (None, w') =>
          let (found, calls) := first_success rest w' in
          (found, (u, false) :: calls)
      end
  end.

Definition failed (urls : list string) : list (string * bool) :=
  map (fun u => (u, false)) urls.

End FirstSuccess.

Arguments first_success {Dataset World} open_dataset urls w.

(** What the loop over [var] stores for a value. *)
Definition stored (val : float) : option float :=
  if Float.eqb val val then Some (Float.round val 2) else None.

(** What an hour of the forecast holds for a variable whose value at that
    time is [val]. *)
Definition normalized (var : string) (val : float) : option float :=
  if Float.eqb val val then
    let v := Float.round val 2 in
    if String.eqb var "htsgwsfc" && Float.truthy v && Float.gtb v CEILING
    then None
    else Some v
  else None.

(** Texts written line by line: a line holds no line boundary, a text
    starts with a character that is not white space and ends with one. *)
Fixpoint no_linebreak (s : string) : bool :=
  match s with
  | EmptyString => true
  | String c s' => negb (Str.is_linebreak c) && no_linebreak s'
  end.

Definition starts_clean (s : string) : bool :=
  match s with
  | EmptyString => false
  | String c _ => negb (Str.isspace c)
  end.

Fixpoint ends_clean (s : string) : bool :=
  match s with
  | EmptyString => false
  | String c EmptyString => negb (Str.isspace c)
  | String _ s' => ends_clean s'
  end.

(** The ten numeric fields of a reading. *)
Definition numeric_fields (r : Reading) : list (option float) :=
  [waveHeight_m r; dominantPeriod_s r; avgPeriod_s r; meanDirection_deg r;
   waterTemp_C r; windSpeed_mps r; windDir_deg r; pressure_hPa r; gust_mps r;
   airTemp_C r].

(** Whether the dataset of a grid point has a variable: [var in ds_point]. *)
Definition in_dataset {Timestamp : Type} (p : Point Timestamp) (var : string) : bool :=
  match data_var p var with
  | Some _ => true
  | None => false
  end.

(** Strings whose characters all satisfy a test, strings that do not start
    with a character satisfying it, and the pattern of a location read as a
    way to cut the text: a run of digits and dots, optional white space, [N]
    or [S], white space, a run of digits and dots, optional white space, [E]
    or [W], and anything after. *)
Fixpoint all_chars (p : ascii -> bool) (s : string) : bool :=
  match s with
  | EmptyString => true
  | String c s' => p c && all_chars p s'
  end.

Definition head_fails (p : ascii -> bool) (s : string) : bool :=
  match s with
  | EmptyString => true
  | String c _ => negb (p c)
  end.

Definition location_pattern (loc g1 : string) (h1 : ascii) (g3 : string) (h3 : ascii)
  : Prop :=
  exists w1 w2 w3 rest,
    loc = (g1 ++ w1 ++ String h1 (w2 ++ g3 ++ w3 ++ String h3 rest))%string
    /\ g1 <> EmptyString /\ all_chars Stations.is_coordinate_char g1 = true
    /\ all_chars Str.isspace w1 = true
    /\ (h1 = "N" \/ h1 = "S")%char
    /\ w2 <> EmptyString /\ all_chars Str.isspace w2 = true
    /\ g3 <> EmptyString /\ all_chars Stations.is_coordinate_char g3 = true
    /\ all_chars Str.isspace w3 = true
    /\ (h3 = "E" \/ h3 = "W")%char.

(** A number that is zero, finite or infinite with a given sign bit. *)
Definition signed_as (s : bool) (x : float) : Prop :=
  match x with
  | S754_zero s' => s' = s
  | S754_infinity s' => s' = s
  | S754_finite s' _ _ => s' = s
  | S754_nan => False
  end.

(** The three types of [BUOY_TYPES] that hold none of the words [buoy],
    [dart] and [rider]. *)
Definition OTHER_BUOY_TYPES : list string :=
  ["6-meter nomad"; "self-contained ocean observing payload"; "datawell"].

(** What every station of the list satisfies: a type that is not empty and
    passes the filter, a name that is empty only when the identifier is,
    texts without white space at either end, and coordinates that are
    numbers. *)
Definition station_ok (st : Stations.Station) : Prop :=
  Stations.is_buoy_type (Stations.type st) = true
  /\ Stations.type st <> EmptyString
  /\ (Stations.name st = EmptyString -> Stations.id st = EmptyString)
  /\ Str.strip (Stations.id st) = Stations.id st
  /\ Str.strip (Stations.name st) = Stations.name st
  /\ Str.strip (Stations.type st) = Stations.type st
  /\ Stations.lat st <> Float.nan
  /\ Stations.lon st <> Float.nan.

(** A line of the table that the loop passes over before looking at its
    fields: a comment, a blank line, or a line of fewer than 7 fields. *)
Definition skipped_line (line : string) : Prop :=
  String.prefix "#" line = true
  \/ Str.strip line = EmptyString
  \/ List.length (Stations.split_on "|" line) < 7.

(** ** Sample inputs *)

Definition LF : string := String (ascii_of_nat 10) EmptyString.

(** Joins lines with line feeds, one after each line. *)
Fixpoint unlines (ls : list string) : string :=
  match ls with
  | [] => EmptyString
  | l :: ls' => (l ++ LF ++ unlines ls')%string
  end.

(** Lines separated by line feeds, with none after the last. *)
Fixpoint joined (ls : list string) : string :=
  match ls with
  | [] => EmptyString
  | l :: ls' =>
      match ls' with
      | [] => l
      | _ => (l ++ LF ++ joined ls')%string
      end
  end.

Definition STDMET_HEADER : string :=
  "#YY  MM DD hh mm WDIR WSPD GST  WVHT   DPD   APD MWD   PRES  ATMP  WTMP  DEWP  VIS PTDY  TIDE".
Definition STDMET_UNITS : string :=
  "#yr  mo dy hr mn degT m/s  m/s     m   sec   sec degT   hPa  degC  degC  degC  nmi  hPa    ft".
Definition STDMET_ROW_1 : string :=
  "2024 05 06 07 08 210  5.0  7.0   1.2     9   5.1 123 1015.2  11.0  12.3    MM   MM   MM    MM".
Definition STDMET_ROW_2 : string :=
  "2024 05 06 06 38 200  4.0  6.0   1.0     8   4.9 120 1015.0  10.5  12.1    MM   MM   MM    MM".

(** A standard-meteorology text with two data rows, the newest first. *)
Definition stdmet_two_rows : string :=
  unlines [STDMET_HEADER; STDMET_UNITS; STDMET_ROW_1; STDMET_ROW_2].

(** A text of two lines, and one whose data row has twelve fields. *)
Definition stdmet_two_lines : string := unlines [STDMET_HEADER; STDMET_UNITS].
Definition stdmet_short_row : string :=
  unlines [STDMET_HEADER; STDMET_UNITS; "2024 05 06 07 08 210 5.0 7.0 1.2 9 5.1 123"].

Definition SPEC_HEADER : string := "#YY  MM DD hh mm Sep_Freq".

(** Three frequencies, a density row whose second value is the sentinel 999,
    and a full direction row. *)
Definition spec_gap : string :=
  unlines [SPEC_HEADER; "#yr  mo dy hr mn 0.0325 0.0375 0.0425";
           "2024 05 06 07 08 1.2 999.0 0.8"].
Definition swdir_full : string :=
  unlines [SPEC_HEADER; "#yr  mo dy hr mn 0.0325 0.0375 0.0425";
           "2024 05 06 07 08 70.0 80.0 90.0"].

(** The scenario of two frequencies, each with its parenthesized note. *)
Definition spec_two : string :=
  unlines [SPEC_HEADER; "#yr  mo dy hr mn 0.0325(a) 0.0375(b)";
           "2024 05 06 07 08 1.2 0.8"].
Definition swdir_two : string :=
  unlines [SPEC_HEADER; "#yr  mo dy hr mn 0.0325(a) 0.0375(b)";
           "2024 05 06 07 08 70.0 80.0"].

(** A units line whose first frequency is written [inf]. *)
Definition spec_inf : string :=
  unlines [SPEC_HEADER; "#yr  mo dy hr mn inf 0.0375";
           "2024 05 06 07 08 1.2 0.8"].

(** A units line whose second frequency is the sentinel 999. *)
Definition spec_shift : string :=
  unlines [SPEC_HEADER; "#yr  mo dy hr mn 0.0325 999 0.0425";
           "2024 05 06 07 08 1.2 0.8 0.5"].

(** A density text whose data row has six fields. *)
Definition spec_short_row : string :=
  unlines [SPEC_HEADER; "#yr  mo dy hr mn 0.0325"; "2024 05 06 07 08 1.2"].

(** A grid point with one time step, where the primary wave height is 8.004
    and the peak period is 99. *)
Definition sample_point : Point nat :=
  {| time_values := [0];
     data_var := fun var =>
       if String.eqb var "htsgwsfc" then Some (fun _ => Float.literal "8.004")
       else if String.eqb var "perpwsfc" then Some (fun _ => Float.literal "99.0")
       else None |}.

(** A grid point whose primary wave height is 8.5. *)
Definition sample_point_high : Point nat :=
  {| time_values := [0];
     data_var := fun var =>
       if String.eqb var "htsgwsfc" then Some (fun _ => Float.literal "8.5")
       else None |}.

Definition sample_str_time (t : nat) : string := "2024-05-06T12:00:00.000000000".

(** A remote side without state on which only the 00 cycle of the day
    before opens, and one on which nothing opens. *)
Definition sample_date_str (day_offset : nat) : string :=
  match day_offset with
  | 0 => "20240506"
  | 1 => "20240505"
  | _ => "20240504"
  end.

Definition sample_open (u : string) (w : unit) : option string * unit :=
  if String.eqb u (run_url "20240505" "00") then (Some u, w) else (None, w).

Definition sample_closed (u : string) (w : unit) : option string * unit := (None, w).

(** The forecast written when only the 00 cycle of the day before opens and
    every grid point is [sample_point]. *)
Definition sample_forecast : Forecast :=
  {| model := "GFS-Wave";
     run := "gfswave.global.0p16_00z";
     lat := TARGET_LAT;
     lon := TARGET_LON;
     hours := extract_hours sample_str_time sample_point |}.

(** The text [stdmet_two_rows] under another header, with another older
    row, and with other values after the fifteenth field of its first row. *)
Definition stdmet_other_tail : string :=
  unlines ["#header"; "#units";
           "2024 05 06 07 08 210  5.0  7.0   1.2     9   5.1 123 1015.2  11.0  12.3   9.9  1.0 +0.5  0.10";
           "2024 05 06 05 08 MM MM MM MM MM MM MM MM MM MM MM MM MM MM"].

(** A text whose data row has exactly 13 fields. *)
Definition stdmet_13_fields : string :=
  unlines [STDMET_HEADER; STDMET_UNITS;
           "2024 05 06 07 08 210 5.0 7.0 1.2 9 5.1 123 1015.2"].

(** A remote side on which the observation and density files are served and
    the direction file is not. *)
Definition sample_fetch (u : string) (w : unit) : option string * unit :=
  if String.eqb u (buoy_url ".txt") then (Some stdmet_two_rows, w)
  else if String.eqb u (buoy_url ".data_spec") then (Some spec_two, w)
  else (None, w).

(** A remote side on which the three files are served. *)
Definition sample_fetch_all (u : string) (w : unit) : option string * unit :=
  if String.eqb u (buoy_url ".txt") then (Some stdmet_two_rows, w)
  else if String.eqb u (buoy_url ".data_spec") then (Some spec_two, w)
  else if String.eqb u (buoy_url ".swdir") then (Some swdir_two, w)
  else (None, w).

(** A station table: its comment line, a Waverider buoy, a platform that is
    no buoy, and a blank line. *)
Definition TABLE_HEADER : string :=
  "# STATION_ID | OWNER | TTYPE | HULL | NAME | PAYLOAD | LOCATION | TIMEZONE | FORECAST | NOTE".
Definition TABLE_BUOY : string :=
  "44097|SCRIPPS|Waverider Buoy||Block Island, RI||40.967 N 71.126 W (40 58 N 71 7 W)|E||".
Definition TABLE_PLATFORM : string :=
  "abcd1|XX|Fixed Platform||Somewhere||10.0 N 20.0 E|E||".

Definition station_table : string :=
  unlines [TABLE_HEADER; TABLE_BUOY; TABLE_PLATFORM; "  "].

Definition station_44097 : Stations.Station :=
  {| Stations.id := "44097";
     Stations.name := "Block Island, RI";
     Stations.type := "Waverider Buoy";
     Stations.lat := Float.literal "40.967";
     Stations.lon := Float.literal "-71.126" |}.

(** A table with a buoy whose latitude is written with two dots. *)
Definition station_table_two_dots : string :=
  unlines [TABLE_HEADER; "44098|XX|buoy||Name||1.2.3 N 4 W|E||"].

(** The direction text of [swdir_two] under units that list other
    frequencies. *)
Definition swdir_other_units : string :=
  unlines ["#other"; "#yr  mo dy hr mn 0.5000 0.6000 0.7000";
           "2024 05 06 07 08 70.0 80.0"; "2024 05 06 06 08 10.0 20.0"].

(** * Properties *)

(** ** Floating-point comparisons *)

Lemma SFcompare_antisym (a b : float) (c : comparison) :
  SFcompare a b = Some c -> SFcompare b a = Some (CompOpp c).
Proof.
  destruct a as [sa | sa | | sa ma ea], b as [sb | sb | | sb mb eb];
    simpl; intros H; try discriminate;
    try (injection H as <-; destruct sa; try destruct sb; reflexivity).
  injection H as <-. f_equal.
  destruct sa, sb; try reflexivity;
    rewrite (Z.compare_antisym ea eb); destruct (ea ?= eb)%Z; simpl; try reflexivity;
    rewrite (Pos.compare_cont_antisym ma mb Eq); simpl;
    destruct (Pos.compare_cont Eq ma mb); reflexivity.
Qed.

Lemma SFcompare_total (a b : float) :
  a <> S754_nan -> b <> S754_nan -> exists c, SFcompare a b = Some c.
Proof.
  destruct a, b; simpl; intros Ha Hb; try congruence; eexists; reflexivity.
Qed.

(** A number that is not a NaN and is not greater than [c] is at most [c]. *)
Lemma not_gtb_leb (a c : float) :
  a <> Float.nan -> c <> Float.nan -> Float.gtb a c = false -> Float.leb a c = true.
Proof.
  unfold Float.gtb, Float.leb, SFltb, SFleb, Float.nan. intros Ha Hc H.
  destruct (SFcompare_total c a Hc Ha) as [x Hx].
  rewrite Hx in H. rewrite (SFcompare_antisym _ _ _ Hx).
  destruct x; simpl; try reflexivity; discriminate.
Qed.

Lemma eqb_self (a : float) : Float.eqb a a = true <-> a <> Float.nan.
Proof.
  unfold Float.eqb, SFeqb, Float.nan.
  destruct a as [s | s | | s m e]; simpl.
  - split; [discriminate | reflexivity].
  - destruct s; split; try discriminate; reflexivity.
  - split; [discriminate | congruence].
  - rewrite Z.compare_refl.
    assert (H : Pos.compare_cont Eq m m = Eq) by apply Pos.compare_cont_refl.
    destruct s; rewrite H; simpl; split; try discriminate; reflexivity.
Qed.

(** A number greater than zero is not equal to zero, so dividing by it
    raises nothing. *)
Lemma gtb_zero_div (a f : float) :
  Float.gtb f Float.zero = true ->
  Float.div a f = Ok (SFdiv Float.prec Float.emax a f).
Proof.
  unfold Float.gtb, Float.div, Float.eqb, SFltb, SFeqb, Float.zero.
  destruct f as [s | s | | s m e]; simpl; try discriminate; destruct s;
    try discriminate; reflexivity.
Qed.

(** ** Rounding never produces a NaN *)

Lemma iter_pos_invariant {A : Type} (P : A -> Prop) (f : A -> A) :
  (forall x, P x -> P (f x)) -> forall n x, P x -> P (iter_pos f n x).
Proof.
  intros Hf. induction n as [n IH | n IH | ]; simpl; intros x Hx; auto.
Qed.

Lemma shr_1_nonneg (mrs : shr_record) :
  (0 <= shr_m mrs)%Z -> (0 <= shr_m (shr_1 mrs))%Z.
Proof.
  destruct mrs as [m r s]. simpl.
  destruct m as [ | [p | p | ] | [p | p | ]]; simpl; intros H; lia.
Qed.

Lemma shr_nonneg (mrs : shr_record) (e n : Z) :
  (0 <= shr_m mrs)%Z -> (0 <= shr_m (fst (shr mrs e n)))%Z.
Proof.
  intros H. unfold shr. destruct n as [ | p | p]; simpl; auto.
  apply (iter_pos_invariant (fun x => (0 <= shr_m x)%Z)); auto using shr_1_nonneg.
Qed.

Lemma shr_fexp_nonneg (m e : Z) (l : location) :
  (0 <= m)%Z -> (0 <= shr_m (fst (shr_fexp Float.prec Float.emax m e l)))%Z.
Proof.
  intros H. unfold shr_fexp. apply shr_nonneg.
  destruct l as [ | [ | | ]]; simpl; assumption.
Qed.

Lemma round_nearest_even_nonneg (m : Z) (l : location) :
  (0 <= m)%Z -> (0 <= round_nearest_even m l)%Z.
Proof.
  intros H. unfold round_nearest_even.
  destruct l as [ | [ | | ]]; try destruct (Z.even m); lia.
Qed.

Lemma binary_round_aux_not_nan (s : bool) (m e : Z) (l : location) :
  (0 <= m)%Z -> binary_round_aux Float.prec Float.emax s m e l <> S754_nan.
Proof.
  intros H. unfold binary_round_aux.
  pose proof (shr_fexp_nonneg m e l H) as H1.
  destruct (shr_fexp Float.prec Float.emax m e l) as [mrs' e']. simpl in H1.
  pose proof (shr_fexp_nonneg _ e' loc_Exact
                (round_nearest_even_nonneg _ (loc_of_shr_record mrs') H1)) as H2.
  destruct (shr_fexp Float.prec Float.emax
              (round_nearest_even (shr_m mrs') (loc_of_shr_record mrs')) e' loc_Exact)
    as [mrs'' e'']. simpl in H2.
  destruct (shr_m mrs'') as [ | p | p]; try discriminate.
  - destruct (e'' <=? Float.emax - Float.prec)%Z; discriminate.
  - lia.
Qed.

Lemma of_ratio_not_nan (s : bool) (n d : positive) :
  Float.of_ratio s n d <> S754_nan.
Proof.
  unfold Float.of_ratio, SFdiv, SFdiv_core_binary.
  set (e' := Z.min _ _). set (m' := match (0 - 0 - e')%Z with Z0 => _ | _ => _ end).
  assert (Hm : (0 <= m')%Z).
  { unfold m'. destruct (0 - 0 - e')%Z; try lia.
    rewrite Z.shiftl_mul_pow2 by lia. apply Z.mul_nonneg_nonneg; lia. }
  pose proof (Z.div_pos m' (Zpos d) Hm ltac:(lia)) as Hq.
  unfold Z.div in Hq. destruct (Z.div_eucl m' (Z.pos d)) as [q r]. simpl in Hq.
  apply binary_round_aux_not_nan. exact Hq.
Qed.

Lemma round_not_nan (x : float) (n : nat) :
  x <> Float.nan -> Float.round x n <> Float.nan.
Proof.
  unfold Float.round, Float.nan. intros H.
  destruct x as [s | s | | s m [ | k | k]]; try assumption.
  destruct (Float.div_nearest_even _ _); try discriminate.
  apply of_ratio_not_nan.
Qed.

(** ** The sentinel filter *)

Lemma mem_spec (f : float) (s : list float) :
  mem f s = true <-> in_extra f s.
Proof.
  unfold mem, in_extra. rewrite existsb_exists. reflexivity.
Qed.

Lemma literal_99 : Float.literal "99.0" = Float.literal "99"
                   /\ Float.literal "99.00" = Float.literal "99".
Proof. split; vm_compute; reflexivity. Qed.

Lemma literal_999 : Float.literal "999.0" = Float.literal "999"
                    /\ Float.literal "999.00" = Float.literal "999".
Proof. split; vm_compute; reflexivity. Qed.

Lemma literal_9999 : Float.literal "9999.0" = Float.literal "9999".
Proof. vm_compute; reflexivity. Qed.

Lemma missing_vals_spec (f : float) :
  mem f MISSING_VALS = true <-> is_sentinel f.
Proof.
  unfold mem, MISSING_VALS, is_sentinel.
  destruct literal_99 as [-> ->]. destruct literal_999 as [-> ->].
  rewrite literal_9999. simpl. rewrite !orb_true_iff. intuition discriminate.
Qed.

Lemma safe_float_parsed (val : string) (extra : list float) (f : float) :
  Float.of_string val = Some f ->
  safe_float val extra = if mem f MISSING_VALS || mem f extra then None else Some f.
Proof.
  intros H. unfold safe_float. rewrite H.
  destruct (mem f MISSING_VALS); simpl; [reflexivity | ].
  destruct extra as [ | e extra]; reflexivity.
Qed.

Lemma safe_float_none (val : string) (extra : list float) (f : float) :
  Float.of_string val = Some f ->
  (safe_float val extra = None <-> is_sentinel f \/ in_extra f extra).
Proof.
  intros H. rewrite (safe_float_parsed _ _ _ H).
  rewrite <- missing_vals_spec, <- mem_spec, <- orb_true_iff.
  destruct (mem f MISSING_VALS || mem f extra); split; congruence.
Qed.

Lemma safe_float_some (val : string) (extra : list float) (f : float) :
  safe_float val extra = Some f ->
  Float.of_string val = Some f /\ ~ is_sentinel f /\ ~ in_extra f extra.
Proof.
  intros H.
  destruct (Float.of_string val) as [g | ] eqn:Hg.
  - rewrite (safe_float_parsed _ _ _ Hg) in H.
    rewrite <- missing_vals_spec, <- mem_spec.
    destruct (mem g MISSING_VALS) eqn:E1; [discriminate | ].
    destruct (mem g extra) eqn:E2; [discriminate | ].
    injection H as <-. rewrite E1, E2. repeat split; discriminate.
  - unfold safe_float in H. rewrite Hg in H. discriminate.
Qed.

Lemma safe_float_wave_some (val : string) (h : float) :
  safe_float_wave val = Some h ->
  safe_float val [Float.literal "9.9"] = Some h /\ Float.gtb h CEILING = false.
Proof.
  unfold safe_float_wave, CEILING.
  destruct (safe_float val [Float.literal "9.9"]) as [x | ]; [ | discriminate].
  destruct (Float.gtb x (Float.literal "8.0")) eqn:Hx; [discriminate | ].
  intros H. injection H as <-. split; [reflexivity | exact Hx].
Qed.

Lemma safe_float_wave_above (val : string) (f : float) :
  Float.of_string val = Some f -> Float.gtb f CEILING = true ->
  safe_float_wave val = None.
Proof.
  intros Hf Hgt. unfold safe_float_wave.
  rewrite (safe_float_parsed _ _ _ Hf).
  destruct (mem f MISSING_VALS || mem f [Float.literal "9.9"]); [reflexivity | ].
  unfold CEILING in Hgt. rewrite Hgt. reflexivity.
Qed.

(** The claim of C3 fails for the wave-height variant: 8.5 converts, equals
    no sentinel and is not 9.9, yet the variant returns absent for it, not
    the number. *)
Lemma wave_filter_nulls_above_ceiling :
  Float.of_string "8.5" = Some (Float.literal "8.5")
  /\ ~ is_sentinel (Float.literal "8.5")
  /\ Float.eqb (Float.literal "8.5") (Float.literal "9.9") = false
  /\ safe_float "8.5" [] = Some (Float.literal "8.5")
  /\ safe_float_wave "8.5" = None.
Proof.
  split; [vm_compute; reflexivity | split; [ | repeat split; vm_compute; reflexivity]].
  intros [H | [H | H]]; vm_compute in H; discriminate.
Qed.

(** C3, amended: the filter returns absent when the conversion fails; when
    it succeeds with [f], it returns absent exactly when [f] equals 99, 999
    or 9999 or a member of the extra set, and returns [f] itself otherwise.
    The wave-height variant returns absent when the conversion fails, and
    when it succeeds with [f], exactly when [f] equals one of these
    sentinels or 9.9 or is greater than 8.0; it returns [f] itself
    otherwise. *)
Theorem safe_float_sentinels (val : string) (extra : list float) :
  (Float.of_string val = None ->
   safe_float val extra = None /\ safe_float_wave val = None)
  /\ (forall f, Float.of_string val = Some f ->
        (safe_float val extra = None <-> is_sentinel f \/ in_extra f extra)
        /\ (~ (is_sentinel f \/ in_extra f extra) -> safe_float val extra = Some f)
        /\ (is_sentinel f \/ Float.eqb f (Float.literal "9.9") = true ->
            safe_float_wave val = None)
        /\ (safe_float_wave val = None <->
            is_sentinel f \/ Float.eqb f (Float.literal "9.9") = true
            \/ Float.gtb f CEILING = true)
        /\ (~ (is_sentinel f \/ Float.eqb f (Float.literal "9.9") = true
               \/ Float.gtb f CEILING = true) ->
            safe_float_wave val = Some f)).
Proof.
  split.
  - intros H. unfold safe_float_wave, safe_float. rewrite H. split; reflexivity.
  - intros f Hf.
    assert (Hw : safe_float val [Float.literal "9.9"] = None <->
                 is_sentinel f \/ Float.eqb f (Float.literal "9.9") = true).
    { rewrite (safe_float_none _ _ _ Hf). unfold in_extra. split.
      - intros [Hs | (e & [<- | []] & He)]; [left; exact Hs | right; exact He].
      - intros [Hs | He]; [left; exact Hs | ].
        right. exists (Float.literal "9.9"). split; [left; reflexivity | exact He]. }
    assert (Hnone : safe_float_wave val = None <->
                    is_sentinel f \/ Float.eqb f (Float.literal "9.9") = true
                    \/ Float.gtb f CEILING = true).
    { split.
      - intros H. unfold safe_float_wave in H.
        destruct (safe_float val [Float.literal "9.9"]) as [x | ] eqn:Hx.
        + destruct (safe_float_some _ _ _ Hx) as (Hx' & _ & _).
          rewrite Hf in Hx'. injection Hx' as <-.
          unfold CEILING. destruct (Float.gtb f (Float.literal "8.0"));
            [right; right; reflexivity | discriminate].
        + destruct (proj1 Hw eq_refl) as [Hs | He]; [left; exact Hs | right; left; exact He].
      - intros [Hs | [He | Hg]].
        + unfold safe_float_wave. rewrite (proj2 Hw (or_introl Hs)). reflexivity.
        + unfold safe_float_wave. rewrite (proj2 Hw (or_intror He)). reflexivity.
        + exact (safe_float_wave_above _ _ Hf Hg). }
    split; [exact (safe_float_none _ _ _ Hf) | split; [ | split; [ | split]]].
    + intros Hn. rewrite (safe_float_parsed _ _ _ Hf).
      destruct (mem f MISSING_VALS || mem f extra) eqn:Hm; [ | reflexivity].
      exfalso. apply Hn. rewrite <- missing_vals_spec, <- mem_spec.
      apply orb_true_iff. exact Hm.
    + intros Hs. unfold safe_float_wave. rewrite (proj2 Hw Hs). reflexivity.
    + exact Hnone.
    + intros Hn. destruct (safe_float_wave val) as [h | ] eqn:Hh.
      * destruct (safe_float_wave_some _ _ Hh) as [Hx _].
        destruct (safe_float_some _ _ _ Hx) as (Hx' & _ & _).
        rewrite Hf in Hx'. injection Hx' as <-. reflexivity.
      * exfalso. apply Hn. apply Hnone. reflexivity.
Qed.

Lemma safe_float_sentinels_witness :
  safe_float "MM" [] = None
  /\ safe_float "999" [] = None
  /\ safe_float "1.5" [] = Some (Float.literal "1.5")
  /\ safe_float_wave "9.9" = None
  /\ safe_float_wave "8.5" = None
  /\ safe_float_wave "1.2" = Some (Float.literal "1.2").
Proof.
  split; [ | split; [ | split; [ | split; [ | split]]]].
  - apply (proj1 (safe_float_sentinels "MM" [])). vm_compute; reflexivity.
  - destruct (proj2 (safe_float_sentinels "999" []) (Float.literal "999")) as [H _].
    + vm_compute; reflexivity.
    + apply H. left. right. left. vm_compute; reflexivity.
  - destruct (proj2 (safe_float_sentinels "1.5" []) (Float.literal "1.5"))
      as (_ & H & _).
    + vm_compute; reflexivity.
    + apply H. intros [[Hs | [Hs | Hs]] | (e & [] & _)];
        vm_compute in Hs; discriminate.
  - destruct (proj2 (safe_float_sentinels "9.9" []) (Float.literal "9.9"))
      as (_ & _ & H & _).
    + vm_compute; reflexivity.
    + apply H. right. vm_compute; reflexivity.
  - destruct (proj2 (safe_float_sentinels "8.5" []) (Float.literal "8.5"))
      as (_ & _ & _ & H & _).
    + vm_compute; reflexivity.
    + apply H. right. right. vm_compute; reflexivity.
  - destruct (proj2 (safe_float_sentinels "1.2" []) (Float.literal "1.2"))
      as (_ & _ & _ & _ & H).
    + vm_compute; reflexivity.
    + apply H. intros [[Hs | [Hs | Hs]] | [Hs | Hs]];
        vm_compute in Hs; discriminate.
Defined.

(** ** The observation parser *)

Lemma index_nth_error {A : Type} (l : list A) (i : nat) (a : A) :
  nth_error l i = Some a -> index l i = Ok a.
Proof. unfold index. intros ->. reflexivity. Qed.

(** On a row of at least 13 fields no index is out of range, and the
    record built is the one [reading_of_row] describes. *)
Lemma parse_row_total (row : list string) :
  Nat.ltb (List.length row) 13 = false ->
  (t <- time_string row ;;
   r8 <- index row 8 ;;
   dpd <- field row 9 ;;
   apd <- field row 10 ;;
   mwd <- field row 11 ;;
   wtmp <- optional_field row 14 ;;
   wspd <- field row 6 ;;
   wdir <- field row 5 ;;
   pres <- field row 12 ;;
   gst <- field row 7 ;;
   atmp <- optional_field row 13 ;;
   Ok (Some {| time := t;
               waveHeight_m := safe_float_wave r8;
               dominantPeriod_s := dpd;
               avgPeriod_s := apd;
               meanDirection_deg := mwd;
               waterTemp_C := wtmp;
               windSpeed_mps := wspd;
               windDir_deg := wdir;
               pressure_hPa := pres;
               gust_mps := gst;
               airTemp_C := atmp |})) = Ok (reading_of_row row).
Proof.
  intros H. unfold reading_of_row. rewrite H.
  do 13 (destruct row as [ | ? row]; [discriminate H | ]).
  destruct row as [ | r13 [ | r14 row]]; reflexivity.
Qed.

Lemma parse_stdmet_spec (text : string) :
  parse_stdmet text = Ok (reading_of_line text 2).
Proof.
  unfold parse_stdmet, reading_of_line, text_lines.
  destruct (Str.splitlines (Str.strip text)) as [ | l0 [ | l1 [ | l2 rest]]];
    try reflexivity.
  simpl. destruct (Nat.ltb (List.length (Str.split l2)) 13) eqn:H.
  - unfold reading_of_row. rewrite H. reflexivity.
  - apply parse_row_total. exact H.
Qed.

(** ** The spectral merger *)

Lemma parse_freqs_from (tokens : list string) (acc : list float) :
  fold_left
    (fun freqs p =>
       match safe_float p [] with
       | Some f => freqs ++ [f]
       | None => freqs
       end) tokens acc = acc ++ kept tokens.
Proof.
  revert acc. induction tokens as [ | t ts IH]; intros acc; simpl.
  - rewrite app_nil_r. reflexivity.
  - rewrite IH. destruct (safe_float t []); [ | reflexivity].
    rewrite <- app_assoc. reflexivity.
Qed.

Lemma parse_freqs_kept (tokens : list string) : parse_freqs tokens = kept tokens.
Proof. unfold parse_freqs. apply parse_freqs_from. Qed.

Lemma parse_values_from (tokens : list string) (acc : list (option float)) :
  fold_left (fun values v => values ++ [safe_float v []]) tokens acc
  = acc ++ map (fun v => safe_float v []) tokens.
Proof.
  revert acc. induction tokens as [ | t ts IH]; intros acc; simpl.
  - rewrite app_nil_r. reflexivity.
  - rewrite IH, <- app_assoc. reflexivity.
Qed.

Lemma parse_values_map (tokens : list string) :
  parse_values tokens = map (fun v => safe_float v []) tokens.
Proof. unfold parse_values. apply parse_values_from. Qed.

Lemma skipn_cons_nth {A : Type} (l : list A) (k : nat) :
  k < List.length l ->
  exists x, nth_error l k = Some x /\ skipn k l = x :: skipn (S k) l.
Proof.
  revert k. induction l as [ | a l IH]; intros k H; simpl in H; [lia | ].
  destruct k as [ | k].
  - exists a. split; reflexivity.
  - destruct (IH k) as (x & H1 & H2); [lia | ].
    exists x. split; [exact H1 | exact H2].
Qed.

Lemma zip_present_exhausted (F : list float) (D R : list (option float)) :
  F = [] \/ D = [] \/ R = [] -> zip_present F D R = [].
Proof.
  intros [-> | [-> | ->]]; [reflexivity | destruct F; reflexivity | ].
  destruct F as [ | f F]; [reflexivity | ].
  destruct D as [ | [d | ] D]; reflexivity.
Qed.

Lemma skipn_exhausted {A : Type} (l : list A) (k : nat) :
  List.length l <= k -> skipn k l = [].
Proof. intros H. apply skipn_all2. exact H. Qed.

(** One turn of the loop at an index below the three lengths. *)
Lemma merge_step_at (F : list float) (D R : list (option float))
    (entries : list SpectralBin) (k : nat) (f : float) (d r : option float) :
  nth_error F k = Some f -> nth_error D k = Some d -> nth_error R k = Some r ->
  merge_step F D R entries k
  = Ok (entries ++ zip_present [f] [d] [r]).
Proof.
  intros HF HD HR. unfold merge_step.
  rewrite (index_nth_error _ _ _ HD). simpl.
  destruct d as [d | ]; [ | rewrite app_nil_r; reflexivity].
  rewrite (index_nth_error _ _ _ HR). simpl.
  destruct r as [r | ]; [ | rewrite app_nil_r; reflexivity].
  rewrite (index_nth_error _ _ _ HF). simpl.
  unfold bin_of, period_of, reciprocal.
  destruct (Float.gtb f Float.zero) eqn:Hf; [ | reflexivity].
  rewrite (gtb_zero_div _ _ Hf). reflexivity.
Qed.

Lemma zip_present_cons (f : float) (d r : option float)
    (F : list float) (D R : list (option float)) :
  zip_present (f :: F) (d :: D) (r :: R)
  = zip_present [f] [d] [r] ++ zip_present F D R.
Proof. destruct d as [d | ], r as [r | ]; reflexivity. Qed.

Lemma merge_loop (F : list float) (D R : list (option float)) (n : nat) :
  forall (k : nat) (entries : list SpectralBin),
    k + n = min3 (List.length F) (List.length D) (List.length R) ->
    for_each (seq k n) (merge_step F D R) entries
    = Ok (entries ++ zip_present (skipn k F) (skipn k D) (skipn k R)).
Proof.
  unfold min3. induction n as [ | n IH]; intros k entries H; simpl.
  - rewrite zip_present_exhausted; [rewrite app_nil_r; reflexivity | ].
    assert (Hk : List.length F <= k \/ List.length D <= k \/ List.length R <= k) by lia.
    destruct Hk as [Hk | [Hk | Hk]]; rewrite (skipn_exhausted _ _ Hk); auto.
  - destruct (skipn_cons_nth F k) as (f & HF & ->); [lia | ].
    destruct (skipn_cons_nth D k) as (d & HD & ->); [lia | ].
    destruct (skipn_cons_nth R k) as (r & HR & ->); [lia | ].
    rewrite zip_present_cons, app_assoc. cbn [seq for_each].
    rewrite (merge_step_at _ _ _ _ _ _ _ _ HF HD HR). cbn [bind].
    apply IH. lia.
Qed.

(** The loop raises nothing and emits the bin of every index at which the
    three values are present, in order. *)
Lemma merge_spec (F : list float) (D R : list (option float)) :
  merge F D R = Ok (zip_present F D R).
Proof. unfold merge. rewrite merge_loop by reflexivity. reflexivity. Qed.

Lemma time_string_total (row : list string) :
  Nat.ltb (List.length row) 7 = false -> exists t, time_string row = Ok t.
Proof.
  intros H. do 7 (destruct row as [ | ? row]; [discriminate H | ]).
  eexists. reflexivity.
Qed.

(** What [parse_data_spec] returns, by cases on the two guards. *)
Lemma parse_data_spec_spec (spec_text swdir_text : string) :
  parse_data_spec spec_text swdir_text
  = Ok (if Nat.ltb (List.length (text_lines spec_text)) 3
           || Nat.ltb (List.length (text_lines swdir_text)) 3
        then []
        else if Nat.ltb (List.length (data_row spec_text)) 7
                || Nat.ltb (List.length (data_row swdir_text)) 7
        then []
        else zip_present (frequency_series spec_text) (value_series spec_text)
               (value_series swdir_text)).
Proof.
  unfold parse_data_spec, frequency_series, value_series, data_row, text_lines.
  destruct (Str.splitlines (Str.strip spec_text)) as [ | s0 [ | s1 [ | s2 srest]]];
    try reflexivity.
  destruct (Str.splitlines (Str.strip swdir_text)) as [ | w0 [ | w1 [ | w2 wrest]]];
    try reflexivity.
  simpl.
  destruct (Nat.ltb (List.length (Str.split s2)) 7) eqn:Hs; [reflexivity | ].
  destruct (Nat.ltb (List.length (Str.split w2)) 7) eqn:Hw; [reflexivity | ].
  simpl. destruct (time_string_total _ Hs) as [t ->]. simpl.
  apply merge_spec.
Qed.

Lemma zip_present_length (F : list float) (D R : list (option float)) :
  List.length (zip_present F D R)
  <= min3 (List.length F) (List.length D) (List.length R).
Proof.
  unfold min3. revert D R. induction F as [ | f F IH]; intros D R; [simpl; lia | ].
  destruct D as [ | d D]; [simpl; lia | ].
  destruct R as [ | r R]; [destruct d; simpl; lia | ].
  specialize (IH D R). destruct d as [d | ], r as [r | ]; simpl; lia.
Qed.

(** The bins emitted are those of the indices at which the three values are
    present. *)
Lemma zip_present_index (F : list float) (D R : list (option float)) (b : SpectralBin) :
  In b (zip_present F D R) <->
  exists i f d r,
    nth_error F i = Some f /\ nth_error D i = Some (Some d)
    /\ nth_error R i = Some (Some r) /\ b = bin_of f d r.
Proof.
  revert D R. induction F as [ | f F IH]; intros D R.
  - simpl. split; [intros [] | ]. intros ([ | i] & f & d & r & H & _); discriminate.
  - destruct D as [ | d D].
    { simpl. split; [intros [] | ].
      intros ([ | i] & f' & d' & r' & _ & H & _); discriminate. }
    destruct R as [ | r R].
    { rewrite zip_present_exhausted by auto. split; [intros [] | ].
      intros ([ | i] & f' & d' & r' & _ & _ & H & _); discriminate. }
    rewrite zip_present_cons, in_app_iff, IH. split.
    + intros [H | (i & f' & d' & r' & H)].
      * destruct d as [d | ], r as [r | ]; simpl in H; try contradiction.
        destruct H as [<- | []]. exists 0, f, d, r. repeat split.
      * exists (S i), f', d', r'. exact H.
    + intros ([ | i] & f' & d' & r' & HF & HD & HR & ->); simpl in *.
      * injection HF as ->. injection HD as ->. injection HR as ->.
        left. left. reflexivity.
      * right. exists i, f', d', r'. repeat split; assumption.
Qed.

(** The claim of C1 fails: the second density of [spec_gap] is absent, the
    loop goes on, and the bin of the third index is emitted after the first,
    where a merge that stopped at the gap would return one bin. *)
Lemma merge_continues_after_gap :
  value_series spec_gap
  = [Some (Float.literal "1.2"); None; Some (Float.literal "0.8")]
  /\ parse_data_spec spec_gap swdir_full
     = Ok [bin_of (Float.literal "0.0325") (Float.literal "1.2") (Float.literal "70.0");
           bin_of (Float.literal "0.0425") (Float.literal "0.8") (Float.literal "90.0")]
  /\ parse_data_spec spec_gap swdir_full
     <> Ok (zip_until_gap (frequency_series spec_gap) (value_series spec_gap)
              (value_series swdir_full)).
Proof.
  split; [vm_compute; reflexivity | split; [vm_compute; reflexivity | ]].
  vm_compute. discriminate.
Qed.

(** C1, amended: when both texts have three lines and both data rows seven
    fields, the output holds, in index order, the bin of every index that is
    below the three lengths and at which the three values are present; an
    index with an absent value is skipped and the later ones still count. *)
Theorem merge_keeps_present_indices (spec_text swdir_text : string) :
  Nat.ltb (List.length (text_lines spec_text)) 3 = false ->
  Nat.ltb (List.length (text_lines swdir_text)) 3 = false ->
  Nat.ltb (List.length (data_row spec_text)) 7 = false ->
  Nat.ltb (List.length (data_row swdir_text)) 7 = false ->
  exists bins,
    parse_data_spec spec_text swdir_text = Ok bins
    /\ bins = zip_present (frequency_series spec_text) (value_series spec_text)
                (value_series swdir_text)
    /\ forall b, In b bins <->
         exists i f d r,
           nth_error (frequency_series spec_text) i = Some f
           /\ nth_error (value_series spec_text) i = Some (Some d)
           /\ nth_error (value_series swdir_text) i = Some (Some r)
           /\ b = bin_of f d r.
Proof.
  intros H1 H2 H3 H4. eexists. split; [ | split; [reflexivity | ]].
  - rewrite parse_data_spec_spec, H1, H2, H3, H4. reflexivity.
  - intros b. apply zip_present_index.
Qed.

Lemma merge_keeps_present_indices_witness :
  exists bins,
    parse_data_spec spec_gap swdir_full = Ok bins
    /\ bins = zip_present (frequency_series spec_gap) (value_series spec_gap)
                (value_series swdir_full)
    /\ forall b, In b bins <->
         exists i f d r,
           nth_error (frequency_series spec_gap) i = Some f
           /\ nth_error (value_series spec_gap) i = Some (Some d)
           /\ nth_error (value_series swdir_full) i = Some (Some r)
           /\ b = bin_of f d r.
Proof.
  apply (merge_keeps_present_indices spec_gap swdir_full); vm_compute; reflexivity.
Defined.

(** C8: the merged spectrum is returned, and it is no longer than the
    shortest of the frequency, density and direction series. *)
Theorem merged_length_bound (spec_text swdir_text : string) :
  exists bins,
    parse_data_spec spec_text swdir_text = Ok bins
    /\ List.length bins
       <= min3 (List.length (frequency_series spec_text))
            (List.length (value_series spec_text))
            (List.length (value_series swdir_text)).
Proof.
  eexists. split; [apply parse_data_spec_spec | ].
  destruct (_ || _); [simpl; lia | ].
  destruct (_ || _); [simpl; lia | ].
  apply zip_present_length.
Qed.

(** C9: neither parser raises; the observation parser returns no reading
    when the text has fewer than three lines or its data row fewer than 13
    fields, and the merger returns the empty list when either text has fewer
    than three lines or either data row fewer than seven fields. *)
Theorem parse_failures_degrade (text spec_text swdir_text : string) :
  (exists r, parse_stdmet text = Ok r)
  /\ (List.length (text_lines text) < 3 -> parse_stdmet text = Ok None)
  /\ (List.length (data_row text) < 13 -> parse_stdmet text = Ok None)
  /\ (exists bins, parse_data_spec spec_text swdir_text = Ok bins)
  /\ (List.length (text_lines spec_text) < 3 \/ List.length (text_lines swdir_text) < 3 ->
      parse_data_spec spec_text swdir_text = Ok [])
  /\ (List.length (data_row spec_text) < 7 \/ List.length (data_row swdir_text) < 7 ->
      parse_data_spec spec_text swdir_text = Ok []).
Proof.
  repeat split.
  - eexists. apply parse_stdmet_spec.
  - intros H. rewrite parse_stdmet_spec. unfold reading_of_line.
    destruct (text_lines text) as [ | l0 [ | l1 [ | l2 rest]]]; try reflexivity.
    simpl in H. lia.
  - intros H. rewrite parse_stdmet_spec. unfold reading_of_line.
    unfold data_row in H. destruct (nth_error (text_lines text) 2); [ | reflexivity].
    unfold reading_of_row. apply Nat.ltb_lt in H. rewrite H. reflexivity.
  - eexists. apply parse_data_spec_spec.
  - intros H. rewrite parse_data_spec_spec.
    assert (E : Nat.ltb (List.length (text_lines spec_text)) 3
                || Nat.ltb (List.length (text_lines swdir_text)) 3 = true).
    { apply orb_true_iff. rewrite !Nat.ltb_lt. exact H. }
    rewrite E. reflexivity.
  - intros H. rewrite parse_data_spec_spec.
    assert (E : Nat.ltb (List.length (data_row spec_text)) 7
                || Nat.ltb (List.length (data_row swdir_text)) 7 = true).
    { apply orb_true_iff. rewrite !Nat.ltb_lt. exact H. }
    rewrite E.
    destruct (Nat.ltb (List.length (text_lines spec_text)) 3
              || Nat.ltb (List.length (text_lines swdir_text)) 3); reflexivity.
Qed.

Lemma parse_failures_degrade_witness :
  parse_stdmet stdmet_two_lines = Ok None
  /\ parse_stdmet stdmet_short_row = Ok None
  /\ parse_data_spec spec_gap stdmet_two_lines = Ok []
  /\ parse_data_spec spec_short_row swdir_full = Ok [].
Proof.
  split; [ | split; [ | split]].
  - apply (parse_failures_degrade stdmet_two_lines spec_gap swdir_full).
    vm_compute. lia.
  - apply (parse_failures_degrade stdmet_short_row spec_gap swdir_full).
    vm_compute. lia.
  - apply (parse_failures_degrade stdmet_two_lines spec_gap stdmet_two_lines).
    right. vm_compute. lia.
  - apply (parse_failures_degrade stdmet_two_lines spec_short_row swdir_full).
    left. vm_compute. lia.
Defined.

Lemma kept_app (pre post : list string) : kept (pre ++ post) = kept pre ++ kept post.
Proof.
  induction pre as [ | t pre IH]; simpl; [reflexivity | ].
  rewrite IH. destruct (safe_float t []); reflexivity.
Qed.

(** Where every token passes the filter, the frequencies keep the positions
    of their tokens. *)
Lemma kept_nth (tokens : list string) (j : nat) :
  (forall t, In t tokens -> safe_float t [] <> None) ->
  nth_error (kept tokens) j
  = match nth_error tokens j with
    | Some t => safe_float t []
    | None => None
    end.
Proof.
  revert j. induction tokens as [ | t ts IH]; intros j H.
  - destruct j; reflexivity.
  - simpl. destruct (safe_float t []) as [f | ] eqn:Ht.
    + destruct j as [ | j]; simpl; [symmetry; exact Ht | ].
      apply IH. intros u Hu. apply H. right. exact Hu.
    + exfalso. apply (H t); [left; reflexivity | exact Ht].
Qed.

Lemma kept_length (tokens : list string) :
  (forall t, In t tokens -> safe_float t [] <> None) ->
  List.length (kept tokens) = List.length tokens.
Proof.
  induction tokens as [ | t ts IH]; intros H; [reflexivity | ].
  simpl. destruct (safe_float t []) eqn:Ht.
  - simpl. f_equal. apply IH. intros u Hu. apply H. right. exact Hu.
  - exfalso. apply (H t); [left; reflexivity | exact Ht].
Qed.

(** C10: a header token the filter rejects adds nothing to the frequency
    series, while every token of a data row adds an entry; with one such
    token among tokens that pass, the frequency written at position
    [length pre + 1 + j] is stored at index [length pre + j], one earlier,
    and the value written at that position stays at its index. *)
Theorem dropped_frequency_shifts (pre post : list string) (bad : string) :
  safe_float bad [] = None ->
  parse_freqs (pre ++ bad :: post) = parse_freqs (pre ++ post)
  /\ List.length (parse_values (pre ++ bad :: post))
     = S (List.length (parse_values (pre ++ post)))
  /\ ((forall t, In t (pre ++ post) -> safe_float t [] <> None) ->
      forall j t, nth_error post j = Some t ->
        nth_error (pre ++ bad :: post) (List.length pre + 1 + j) = Some t
        /\ nth_error (parse_freqs (pre ++ bad :: post)) (List.length pre + j)
           = safe_float t []
        /\ nth_error (parse_values (pre ++ bad :: post)) (List.length pre + 1 + j)
           = Some (safe_float t [])).
Proof.
  intros Hbad. split; [ | split].
  - rewrite !parse_freqs_kept, !kept_app. simpl. rewrite Hbad. reflexivity.
  - rewrite !parse_values_map, !length_map, !length_app. simpl. lia.
  - intros Hpass j t Hj.
    assert (Hpos : nth_error (pre ++ bad :: post) (List.length pre + 1 + j) = Some t).
    { rewrite nth_error_app2 by lia.
      replace (List.length pre + 1 + j - List.length pre) with (S j) by lia.
      exact Hj. }
    split; [exact Hpos | split].
    + rewrite parse_freqs_kept, kept_app. simpl. rewrite Hbad.
      assert (Hpre : List.length (kept pre) = List.length pre).
      { apply kept_length. intros u Hu. apply Hpass. apply in_or_app. left. exact Hu. }
      rewrite nth_error_app2 by lia.
      replace (List.length pre + j - List.length (kept pre)) with j by lia.
      rewrite kept_nth, Hj; [reflexivity | ].
      intros u Hu. apply Hpass. apply in_or_app. right. exact Hu.
    + rewrite parse_values_map, nth_error_map, Hpos. reflexivity.
Qed.

Lemma dropped_frequency_shifts_witness :
  parse_freqs ["0.0325"; "999"; "0.0425"] = parse_freqs ["0.0325"; "0.0425"]
  /\ nth_error (parse_freqs ["0.0325"; "999"; "0.0425"]) 1
     = Some (Float.literal "0.0425")
  /\ frequency_series spec_shift = [Float.literal "0.0325"; Float.literal "0.0425"]
  /\ parse_data_spec spec_shift swdir_full
     = Ok [bin_of (Float.literal "0.0325") (Float.literal "1.2") (Float.literal "70.0");
           bin_of (Float.literal "0.0425") (Float.literal "0.8") (Float.literal "80.0")].
Proof.
  assert (Hbad : safe_float "999" [] = None) by (vm_compute; reflexivity).
  destruct (dropped_frequency_shifts ["0.0325"] ["0.0425"] "999" Hbad) as (H1 & _ & H3).
  split; [exact H1 | split; [ | split; vm_compute; reflexivity]].
  destruct (H3 ltac:(intros t [<- | [<- | []]]; vm_compute; discriminate)
              0 "0.0425" eq_refl) as (_ & H & _).
  simpl List.length in H. simpl app in H. simpl Nat.add in H.
  rewrite H. vm_compute. reflexivity.
Defined.

Lemma leb_not_gtb (a c : float) : Float.leb a c = true -> Float.gtb a c = false.
Proof.
  unfold Float.leb, Float.gtb, SFleb, SFltb.
  destruct (SFcompare a c) as [x | ] eqn:H; [ | discriminate].
  rewrite (SFcompare_antisym _ _ _ H). destruct x; simpl; congruence.
Qed.

(** The fields of an emitted bin: the three values rounded to 4, 2 and 1
    decimals; no period for a frequency that is at most zero; and for a
    frequency above zero the reciprocal rounded to 1 decimal, provided the
    reciprocal is not zero. *)
Lemma emitted_bin_fields (f d r : float) :
  freq (bin_of f d r) = Float.round f 4
  /\ energy (bin_of f d r) = Float.round d 2
  /\ direction_deg (bin_of f d r) = Float.round r 1
  /\ (Float.leb f Float.zero = true -> period_s (bin_of f d r) = None)
  /\ (Float.gtb f Float.zero = true -> Float.truthy (reciprocal f) = true ->
      period_s (bin_of f d r) = Some (Float.round (reciprocal f) 1)).
Proof.
  repeat split; simpl; unfold period_of.
  - intros H. rewrite (leb_not_gtb _ _ H). reflexivity.
  - intros H1 H2. rewrite H1, H2. reflexivity.
Qed.

(** The reciprocal of the largest finite number is not zero. *)
Lemma reciprocal_of_largest_finite :
  Float.truthy (reciprocal (SFmax_float Float.prec Float.emax)) = true.
Proof. vm_compute. reflexivity. Qed.

(** C7 on the units line of [spec_inf]: the first frequency is the positive
    infinity, which is above zero and whose reciprocal 0.0 rounds to 0.0, yet
    the bin emitted for it has no period. *)
Theorem infinite_frequency_has_no_period :
  exists b rest,
    parse_data_spec spec_inf swdir_two = Ok (b :: rest)
    /\ nth_error (frequency_series spec_inf) 0 = Some (Float.infinity false)
    /\ Float.gtb (Float.infinity false) Float.zero = true
    /\ Float.round (reciprocal (Float.infinity false)) 1 = Float.zero
    /\ period_s b = None.
Proof.
  eexists. eexists. split; [vm_compute; reflexivity | ].
  repeat split; vm_compute; reflexivity.
Qed.

(** The claim of C2 fails: the line parsed is the row right after the units
    line, the first data row, and not the second one. *)
Lemma stdmet_first_row_parsed :
  text_lines stdmet_two_rows
  = [STDMET_HEADER; STDMET_UNITS; STDMET_ROW_1; STDMET_ROW_2]
  /\ parse_stdmet stdmet_two_rows = Ok (reading_of_row (Str.split STDMET_ROW_1))
  /\ parse_stdmet stdmet_two_rows <> Ok (reading_of_row (Str.split STDMET_ROW_2))
  /\ (exists r, parse_stdmet stdmet_two_rows = Ok (Some r)
                /\ time r = "2024-05-06T07:08Z"
                /\ waveHeight_m r = Some (Float.literal "1.2")).
Proof.
  split; [vm_compute; reflexivity | split; [vm_compute; reflexivity | split]].
  - vm_compute. discriminate.
  - eexists. split; [vm_compute; reflexivity | split; vm_compute; reflexivity].
Qed.

(** C2, amended: in a text of at least three lines the line parsed is the
    one at index 2, which is the first data row, right after the units line;
    no row is skipped and the rows after it are not read.  The reading is the
    one its fields stand for, and there is none when it has fewer than 13
    fields. *)
Theorem stdmet_parses_line_2 (text l0 l1 l2 : string) (rest : list string) :
  text_lines text = l0 :: l1 :: l2 :: rest ->
  parse_stdmet text = Ok (reading_of_row (Str.split l2)).
Proof.
  intros H. rewrite parse_stdmet_spec. unfold reading_of_line. rewrite H. reflexivity.
Qed.

Lemma stdmet_parses_line_2_witness :
  parse_stdmet stdmet_two_rows = Ok (reading_of_row (Str.split STDMET_ROW_1)).
Proof.
  apply (stdmet_parses_line_2 stdmet_two_rows STDMET_HEADER STDMET_UNITS STDMET_ROW_1
           [STDMET_ROW_2]).
  vm_compute. reflexivity.
Defined.

(** ** The run locator *)

Section FirstSuccessFacts.

Variable Dataset : Type.
Variable World : Type.
Variable open_dataset : string -> World -> option Dataset * World.

(** The calls are made in the order of the list, without a gap. *)
Lemma first_success_prefix (urls : list string) (w : World) :
  exists n, map fst (snd (first_success open_dataset urls w)) = firstn n urls.
Proof.
  revert w. induction urls as [ | u urls IH]; intros w.
  - exists 0. reflexivity.
  - simpl. destruct (open_dataset u w) as [[d | ] w'].
    + exists 1. reflexivity.
    + destruct (IH w') as [n Hn].
      destruct (first_success open_dataset urls w') as [found calls].
      exists (S n). simpl in *. rewrite Hn. reflexivity.
Qed.

(** A run that is found is the last call made, and the only one that
    opened. *)
Lemma first_success_found (urls : list string) (w : World) (d : Dataset) (u : string) :
  fst (first_success open_dataset urls w) = Some (d, u) ->
  exists pre post,
    urls = pre ++ u :: post /\ snd (first_success open_dataset urls w) = failed pre ++ [(u, true)].
Proof.
  revert w. induction urls as [ | v urls IH]; intros w; simpl.
  - discriminate.
  - destruct (open_dataset v w) as [[d' | ] w'].
    + simpl. intros H. injection H as -> ->. exists [], urls. split; reflexivity.
    + specialize (IH w').
      destruct (first_success open_dataset urls w') as [found calls].
      simpl in *. intros H. destruct (IH H) as (pre & post & -> & ->).
      exists (v :: pre), post. split; reflexivity.
Qed.

(** Nothing is found exactly when every URL of the list was called and
    none opened. *)
Lemma first_success_none (urls : list string) (w : World) :
  fst (first_success open_dataset urls w) = None <-> snd (first_success open_dataset urls w) = failed urls.
Proof.
  revert w. induction urls as [ | v urls IH]; intros w; simpl.
  - split; reflexivity.
  - destruct (open_dataset v w) as [[d' | ] w'].
    + simpl. split; discriminate.
    + specialize (IH w').
      destruct (first_success open_dataset urls w') as [found calls].
      simpl in *. rewrite IH. split.
      * intros ->. reflexivity.
      * intros H. injection H as ->. reflexivity.
Qed.

End FirstSuccessFacts.

Section Locator.

Variable Dataset : Type.
Variable World : Type.
Variable open_dataset : string -> World -> option Dataset * World.
Variable date_str : nat -> string.

(** The two nested loops are one ordered sweep over the nine candidates
    that stops at the first one that opens. *)
Lemma sweep_is_first_success (w : World) :
  probes (sweep open_dataset date_str w)
  = snd (first_success open_dataset (candidates date_str) w)
  /\ locate_run open_dataset date_str w
     = match fst (first_success open_dataset (candidates date_str) w) with
       | Some found => Ok found
       | None => Raise (SystemExit 1)
       end.
Proof.
  unfold locate_run, sweep, candidates.
  cbn [seq try_days try_cycles CYCLES first_success world probes ds url app].
  repeat
    (match goal with
     | |- context [open_dataset ?u ?x] =>
         destruct (open_dataset u x) as [[? | ] ?];
         cbn [seq try_days try_cycles CYCLES first_success world probes ds url
              app fst snd]
     end);
    split; reflexivity.
Qed.

End Locator.

(** C5: the calls follow the order of the nine candidates without a gap; a
    run that is returned is the last call made and the only one that opened,
    so no later candidate is called; the sweep ends in [sys.exit(1)] exactly
    when all nine candidates were called and none opened, and then
    [fetch_forecast] ends the same way, returning no record. *)
Theorem locator_first_success {Dataset World : Type}
    (open_dataset : string -> World -> option Dataset * World)
    (date_str : nat -> string) (w : World) :
  let calls := probes (sweep open_dataset date_str w) in
  let outcome := locate_run open_dataset date_str w in
  calls = snd (first_success open_dataset (candidates date_str) w)
  /\ (exists n, map fst calls = firstn n (candidates date_str))
  /\ (forall d u, outcome = Ok (d, u) ->
        exists pre post,
          candidates date_str = pre ++ u :: post /\ calls = failed pre ++ [(u, true)])
  /\ (outcome = Raise (SystemExit 1) <-> calls = failed (candidates date_str))
  /\ ((exists d u, outcome = Ok (d, u)) \/ outcome = Raise (SystemExit 1))
  /\ (forall (Timestamp : Type) (str_time : Timestamp -> string)
        (sel_nearest : Dataset -> float -> float -> Point Timestamp),
        outcome = Raise (SystemExit 1) ->
        fetch_forecast open_dataset date_str str_time sel_nearest true w
        = Raise (SystemExit 1)).
Proof.
  intros calls outcome.
  destruct (sweep_is_first_success Dataset World open_dataset date_str w) as [Hc Ho].
  fold calls in Hc. fold outcome in Ho.
  split; [exact Hc | split; [ | split; [ | split; [ | split]]]].
  - rewrite Hc. apply first_success_prefix.
  - intros d u H. rewrite Hc. apply (first_success_found _ _ _ _ _ d).
    rewrite Ho in H.
    destruct (fst (first_success open_dataset (candidates date_str) w));
      [injection H as ->; reflexivity | discriminate].
  - rewrite Hc, <- first_success_none, Ho.
    destruct (fst (first_success open_dataset (candidates date_str) w));
      split; congruence.
  - rewrite Ho.
    destruct (fst (first_success open_dataset (candidates date_str) w)) as [[d u] | ];
      [left; exists d, u; reflexivity | right; reflexivity].
  - intros Timestamp str_time sel_nearest H. unfold fetch_forecast. simpl.
    fold outcome. rewrite H. reflexivity.
Qed.

Lemma locator_first_success_witness :
  probes (sweep sample_closed sample_date_str tt) = failed (candidates sample_date_str)
  /\ exists pre post,
       candidates sample_date_str = pre ++ run_url "20240505" "00" :: post
       /\ probes (sweep sample_open sample_date_str tt)
          = failed pre ++ [(run_url "20240505" "00", true)].
Proof.
  split.
  - apply (locator_first_success sample_closed sample_date_str tt).
    vm_compute. reflexivity.
  - apply (proj1 (proj2 (proj2 (locator_first_success sample_open sample_date_str tt)))
             (run_url "20240505" "00")).
    vm_compute. reflexivity.
Defined.

(** ** The grid-point extractor *)

Lemma dict_get_set (d : dict) (k k' : string) (v : option float) :
  dict_get (dict_set d k v) k' = if String.eqb k k' then Some v else dict_get d k'.
Proof.
  induction d as [ | [k0 v0] d IH]; simpl.
  - reflexivity.
  - destruct (String.eqb k0 k) eqn:E0; simpl.
    + apply String.eqb_eq in E0. subst k0. destruct (String.eqb k k'); reflexivity.
    + rewrite IH. destruct (String.eqb k0 k') eqn:E1; [ | reflexivity].
      apply String.eqb_eq in E1. subst k0. rewrite String.eqb_sym, E0. reflexivity.
Qed.

Section Extractor.

Variable Timestamp : Type.
Variable str_time : Timestamp -> string.
Variable p : Point Timestamp.
Variable t : Timestamp.

Lemma read_fold (vars : list string) (rec : dict) (var : string) :
  dict_get
    (fold_left
       (fun rec var =>
          match data_var p var with
          | Some series =>
              let val := series t in
              dict_set rec var
                (if Float.eqb val val then Some (Float.round val 2) else None)
          | None => rec
          end) vars rec) var
  = if existsb (String.eqb var) vars then
      match data_var p var with
      | Some series => Some (stored (series t))
      | None => dict_get rec var
      end
    else dict_get rec var.
Proof.
  revert rec. induction vars as [ | v vars IH]; intros rec; [reflexivity | ].
  cbn [fold_left existsb]. rewrite IH. clear IH.
  destruct (String.eqb var v) eqn:E; cbn [orb].
  - apply String.eqb_eq in E. subst v.
    destruct (data_var p var) as [series | ].
    + destruct (existsb (String.eqb var) vars); [reflexivity | ].
      cbn zeta. rewrite dict_get_set, String.eqb_refl. reflexivity.
    + destruct (existsb (String.eqb var) vars); reflexivity.
  - destruct (data_var p v) as [sv | ]; [ | reflexivity].
    cbn zeta. rewrite dict_get_set, String.eqb_sym, E. reflexivity.
Qed.

Lemma read_vars_get (var : string) :
  dict_get (read_vars p t) var
  = if existsb (String.eqb var) FORECAST_VARS then
      option_map (fun series => stored (series t)) (data_var p var)
    else None.
Proof.
  unfold read_vars. rewrite read_fold.
  destruct (existsb (String.eqb var) FORECAST_VARS); [ | reflexivity].
  destruct (data_var p var); reflexivity.
Qed.

Lemma validate_get (rec : dict) (var : string) :
  dict_get (validate_wave_height rec) var
  = if String.eqb "htsgwsfc" var then
      match dict_get rec "htsgwsfc" with
      | Some (Some h) =>
          if Float.truthy h && Float.gtb h CEILING then Some None else Some (Some h)
      | other => other
      end
    else dict_get rec var.
Proof.
  unfold validate_wave_height, CEILING.
  destruct (String.eqb "htsgwsfc" var) eqn:E.
  - apply String.eqb_eq in E. subst var.
    destruct (dict_get rec "htsgwsfc") as [[h | ] | ] eqn:Hg; try exact Hg.
    destruct (Float.truthy h && Float.gtb h (Float.literal "8.0")).
    + rewrite dict_get_set, String.eqb_refl. reflexivity.
    + exact Hg.
  - destruct (dict_get rec "htsgwsfc") as [[h | ] | ]; try reflexivity.
    destruct (Float.truthy h && Float.gtb h (Float.literal "8.0")); [ | reflexivity].
    rewrite dict_get_set, E. reflexivity.
Qed.

(** What an hour holds for a variable: nothing when the variable is not
    requested or not in the dataset, its normalized value otherwise. *)
Lemma extract_hour_get (var : string) :
  dict_get (hour_vars (extract_hour str_time p t)) var
  = if existsb (String.eqb var) FORECAST_VARS then
      option_map (fun series => normalized var (series t)) (data_var p var)
    else None.
Proof.
  unfold extract_hour. cbn [hour_vars]. rewrite validate_get, !read_vars_get.
  destruct (String.eqb "htsgwsfc" var) eqn:E.
  - apply String.eqb_eq in E. subst var. cbn [existsb FORECAST_VARS String.eqb Ascii.eqb Bool.eqb orb].
    destruct (data_var p "htsgwsfc") as [series | ]; [ | reflexivity].
    cbn [option_map]. unfold stored, normalized.
    destruct (Float.eqb (series t) (series t)); [ | reflexivity].
    rewrite String.eqb_refl. cbn [andb].
    destruct (Float.truthy _ && Float.gtb _ CEILING); reflexivity.
  - destruct (existsb (String.eqb var) FORECAST_VARS); [ | reflexivity].
    destruct (data_var p var) as [series | ]; [ | reflexivity].
    cbn [option_map]. unfold stored, normalized.
    rewrite String.eqb_sym, E. cbn [andb].
    destruct (Float.eqb (series t) (series t)); reflexivity.
Qed.

End Extractor.

Lemma ceiling_value : CEILING = S754_finite false 4503599627370496 (-49).
Proof. vm_compute. reflexivity. Qed.

Lemma gtb_ceiling_truthy (v : float) :
  Float.gtb v CEILING = true -> Float.truthy v = true.
Proof.
  rewrite ceiling_value.
  unfold Float.gtb, Float.truthy, Float.eqb, Float.zero, SFltb, SFeqb.
  destruct v as [s | s | | s m e]; simpl; try discriminate; destruct s;
    try discriminate; reflexivity.
Qed.

Lemma not_truthy_leb_ceiling (v : float) :
  Float.truthy v = false -> Float.leb v CEILING = true.
Proof.
  rewrite ceiling_value. intros H.
  destruct v as [s | s | | s m e]; [reflexivity | | | ];
    unfold Float.truthy, Float.eqb, Float.zero, SFeqb in H; cbn [SFcompare] in H;
    try discriminate H; destruct s; discriminate H.
Qed.

Lemma in_forecast_vars (var : string) :
  In var FORECAST_VARS -> existsb (String.eqb var) FORECAST_VARS = true.
Proof.
  intros H. apply existsb_exists. exists var. split; [exact H | apply String.eqb_refl].
Qed.

(** The claim of C6 fails: a peak period of 99, one of the sentinels, is
    kept in the hour. *)
Lemma forecast_sentinel_kept :
  mem (Float.literal "99.0") MISSING_VALS = true
  /\ option_map (fun series => series 0) (data_var sample_point "perpwsfc")
     = Some (Float.literal "99.0")
  /\ dict_get (hour_vars (extract_hour sample_str_time sample_point 0)) "perpwsfc"
     = Some (Some (Float.literal "99.0")).
Proof. repeat split; vm_compute; reflexivity. Qed.

(** C6, amended: for every time step and every requested variable of the
    dataset, the hour holds the value rounded to two decimals, whether or
    not it equals a sentinel; it holds an absent value when the value is a
    NaN, and for the primary wave height when the rounded value exceeds the
    ceiling. *)
Theorem forecast_values_normalized {Timestamp : Type} (str_time : Timestamp -> string)
    (p : Point Timestamp) (t : Timestamp) (var : string) (series : Timestamp -> float) :
  In var FORECAST_VARS ->
  data_var p var = Some series ->
  dict_get (hour_vars (extract_hour str_time p t)) var = Some (normalized var (series t))
  /\ (series t = Float.nan -> normalized var (series t) = None)
  /\ (series t <> Float.nan -> var <> "htsgwsfc" ->
      normalized var (series t) = Some (Float.round (series t) 2))
  /\ (Float.gtb (Float.round (series t) 2) CEILING = true ->
      normalized "htsgwsfc" (series t) = None).
Proof.
  intros Hin Hvar. split; [ | split; [ | split]].
  - rewrite extract_hour_get, (in_forecast_vars _ Hin), Hvar. reflexivity.
  - intros ->. reflexivity.
  - intros Hn Hv. unfold normalized. rewrite (proj2 (eqb_self _) Hn).
    apply String.eqb_neq in Hv. rewrite Hv. reflexivity.
  - intros Hgt. unfold normalized.
    destruct (Float.eqb (series t) (series t)); [ | reflexivity].
    cbn zeta. rewrite String.eqb_refl, (gtb_ceiling_truthy _ Hgt), Hgt. reflexivity.
Qed.

Lemma forecast_values_normalized_witness :
  dict_get (hour_vars (extract_hour sample_str_time sample_point 0)) "perpwsfc"
  = Some (normalized "perpwsfc" (Float.literal "99.0")).
Proof.
  apply (forecast_values_normalized sample_str_time sample_point 0 "perpwsfc"
           (fun _ => Float.literal "99.0")).
  - right. left. reflexivity.
  - reflexivity.
Defined.

(** The claim of C4 fails: a primary wave height of 8.004, which is above
    the ceiling, is rounded to 8.0 before the test and kept. *)
Lemma forecast_height_rounded_before_test :
  Float.gtb (Float.literal "8.004") CEILING = true
  /\ option_map (fun series => series 0) (data_var sample_point "htsgwsfc")
     = Some (Float.literal "8.004")
  /\ dict_get (hour_vars (extract_hour sample_str_time sample_point 0)) "htsgwsfc"
     = Some (Some (Float.literal "8.0")).
Proof. repeat split; vm_compute; reflexivity. Qed.

(** A wave-height field written [nan] converts to a NaN, which equals no
    sentinel and is not greater than the ceiling: the reading keeps it. *)
Lemma buoy_nan_height_kept : safe_float_wave "nan" = Some Float.nan.
Proof. vm_compute. reflexivity. Qed.

(** C4, amended: a wave height of the buoy row that is above 8.0 becomes
    absent, and so does a primary wave height of the forecast whose value
    rounded to two decimals is above 8.0; hence the wave height of a reading,
    if present, is not greater than 8.0, and that of a forecast hour, if
    present, is at most 8.0. *)
Theorem wave_height_ceiling :
  (forall val f,
      Float.of_string val = Some f -> Float.gtb f CEILING = true ->
      safe_float_wave val = None)
  /\ (forall text r h,
        parse_stdmet text = Ok (Some r) -> waveHeight_m r = Some h ->
        Float.gtb h CEILING = false)
  /\ (forall (Timestamp : Type) (str_time : Timestamp -> string)
        (p : Point Timestamp) (t : Timestamp) (series : Timestamp -> float),
        data_var p "htsgwsfc" = Some series ->
        Float.gtb (Float.round (series t) 2) CEILING = true ->
        dict_get (hour_vars (extract_hour str_time p t)) "htsgwsfc" = Some None)
  /\ (forall (Timestamp : Type) (str_time : Timestamp -> string)
        (p : Point Timestamp) (t : Timestamp) (h : float),
        dict_get (hour_vars (extract_hour str_time p t)) "htsgwsfc" = Some (Some h) ->
        Float.leb h CEILING = true).
Proof.
  split; [exact safe_float_wave_above | split; [ | split]].
  - intros text r h Hr Hh. rewrite parse_stdmet_spec in Hr. injection Hr as Hr.
    unfold reading_of_line in Hr.
    destruct (nth_error (text_lines text) 2) as [l | ]; [ | discriminate].
    unfold reading_of_row in Hr.
    destruct (Nat.ltb (List.length (Str.split l)) 13); [discriminate | ].
    injection Hr as <-. cbn [waveHeight_m] in Hh.
    apply (safe_float_wave_some _ _ Hh).
  - intros Timestamp str_time p t series Hvar Hgt.
    destruct (forecast_values_normalized str_time p t "htsgwsfc" series) as (H & _ & _ & H');
      [left; reflexivity | exact Hvar | ].
    rewrite H, (H' Hgt). reflexivity.
  - intros Timestamp str_time p t h H.
    rewrite extract_hour_get in H. cbn [existsb FORECAST_VARS String.eqb Ascii.eqb Bool.eqb orb] in H.
    destruct (data_var p "htsgwsfc") as [series | ]; [ | discriminate].
    cbn [option_map] in H. injection H as H. unfold normalized in H.
    destruct (Float.eqb (series t) (series t)) eqn:Hs; [ | discriminate].
    cbn zeta in H. rewrite String.eqb_refl in H. cbn [andb] in H.
    destruct (Float.truthy (Float.round (series t) 2)) eqn:Ht; cbn [andb] in H.
    + destruct (Float.gtb (Float.round (series t) 2) CEILING) eqn:Hg; [discriminate | ].
      injection H as <-. apply not_gtb_leb.
      * apply round_not_nan. apply eqb_self. exact Hs.
      * rewrite ceiling_value. discriminate.
      * exact Hg.
    + injection H as <-. apply not_truthy_leb_ceiling. exact Ht.
Qed.

Lemma wave_height_ceiling_witness :
  safe_float_wave "8.5" = None
  /\ Float.gtb (Float.literal "1.2") CEILING = false
  /\ dict_get (hour_vars (extract_hour sample_str_time sample_point_high 0)) "htsgwsfc"
     = Some None
  /\ Float.leb (Float.literal "8.0") CEILING = true.
Proof.
  destruct wave_height_ceiling as (H1 & H2 & H3 & H4).
  split; [ | split; [ | split]].
  - apply (H1 "8.5" (Float.literal "8.5")); vm_compute; reflexivity.
  - eapply (H2 stdmet_two_rows _ (Float.literal "1.2"));
      [vm_compute; reflexivity | vm_compute; reflexivity].
  - apply (H3 nat sample_str_time sample_point_high 0 (fun _ => Float.literal "8.5"));
      vm_compute; reflexivity.
  - apply (H4 nat sample_str_time sample_point 0). vm_compute. reflexivity.
Defined.

(** ** Texts written line by line *)

Lemma splitlines_line (l rest : string) :
  no_linebreak l = true ->
  Str.splitlines (l ++ LF ++ rest) = l :: Str.splitlines rest.
Proof.
  induction l as [ | c l IH]; intros H.
  - simpl. destruct rest; reflexivity.
  - simpl in H. apply andb_true_iff in H. destruct H as [Hc Hl].
    apply negb_true_iff in Hc. cbn [String.append Str.splitlines]. rewrite Hc.
    change (l ++ String (ascii_of_nat 10) rest)%string with (l ++ LF ++ rest)%string.
    rewrite (IH Hl). reflexivity.
Qed.

Lemma splitlines_single (l : string) :
  no_linebreak l = true -> l <> EmptyString -> Str.splitlines l = [l].
Proof.
  induction l as [ | c l IH]; intros H Hne; [congruence | ].
  simpl in H. apply andb_true_iff in H. destruct H as [Hc Hl].
  apply negb_true_iff in Hc. cbn [Str.splitlines]. rewrite Hc.
  destruct l as [ | c' l]; [reflexivity | ].
  rewrite (IH Hl) by discriminate. reflexivity.
Qed.

Lemma ends_clean_nonempty (l : string) : ends_clean l = true -> l <> EmptyString.
Proof. destruct l; [discriminate | discriminate]. Qed.

Lemma rstrip_cons (c : ascii) (s : string) :
  Str.rstrip (String c s)
  = match Str.rstrip s with
    | EmptyString => if Str.isspace c then EmptyString else String c EmptyString
    | r => String c r
    end.
Proof. reflexivity. Qed.

Lemma rstrip_clean (l : string) : ends_clean l = true -> Str.rstrip l = l.
Proof.
  induction l as [ | c l IH]; intros H; [discriminate | ].
  destruct l as [ | c' l].
  - simpl in *. apply negb_true_iff in H. rewrite H. reflexivity.
  - rewrite rstrip_cons, (IH H). reflexivity.
Qed.

Lemma rstrip_app (a b : string) :
  Str.rstrip b <> EmptyString -> Str.rstrip (a ++ b) = (a ++ Str.rstrip b)%string.
Proof.
  intros H. induction a as [ | c a IH]; [reflexivity | ].
  cbn [String.append]. rewrite rstrip_cons, IH.
  destruct (a ++ Str.rstrip b)%string eqn:E; [ | reflexivity].
  destruct a; simpl in E; [contradiction | discriminate].
Qed.

Lemma rstrip_linefeed (l : string) :
  ends_clean l = true -> Str.rstrip (l ++ LF) = l.
Proof.
  induction l as [ | c l IH]; intros H; [discriminate | ].
  destruct l as [ | c' l].
  - simpl in *. apply negb_true_iff in H. rewrite H. reflexivity.
  - change (String c (String c' l) ++ LF)%string with (String c (String c' l ++ LF)).
    rewrite rstrip_cons, (IH H). reflexivity.
Qed.

Lemma lstrip_clean (s : string) : starts_clean s = true -> Str.lstrip s = s.
Proof.
  destruct s as [ | c s]; [discriminate | ].
  simpl. intros H. apply negb_true_iff in H. rewrite H. reflexivity.
Qed.

Lemma append_assoc (a b c : string) : ((a ++ b) ++ c = a ++ (b ++ c))%string.
Proof. induction a as [ | x a IH]; simpl; [reflexivity | rewrite IH; reflexivity]. Qed.

Lemma unlines_joined (ls : list string) :
  ls <> [] -> unlines ls = (joined ls ++ LF)%string.
Proof.
  induction ls as [ | l ls IH]; intros H; [congruence | ].
  destruct ls as [ | l2 ls].
  - simpl. destruct l; reflexivity.
  - change (unlines (l :: l2 :: ls)) with (l ++ LF ++ unlines (l2 :: ls))%string.
    change (joined (l :: l2 :: ls)) with (l ++ LF ++ joined (l2 :: ls))%string.
    rewrite IH by discriminate. rewrite !append_assoc. reflexivity.
Qed.

Lemma joined_nonempty (ls : list string) :
  last ls EmptyString <> EmptyString -> joined ls <> EmptyString.
Proof.
  destruct ls as [ | l [ | l2 ls]]; simpl; intros H; [congruence | exact H | ].
  destruct l; discriminate.
Qed.

Lemma rstrip_joined (ls : list string) :
  ends_clean (last ls EmptyString) = true ->
  Str.rstrip (joined ls ++ LF) = joined ls.
Proof.
  induction ls as [ | l ls IH]; intros H; [discriminate | ].
  destruct ls as [ | l2 ls].
  - apply rstrip_linefeed. exact H.
  - change (joined (l :: l2 :: ls)) with (l ++ LF ++ joined (l2 :: ls))%string.
    change (last (l :: l2 :: ls) EmptyString) with (last (l2 :: ls) EmptyString) in H.
    specialize (IH H).
    replace ((l ++ LF ++ joined (l2 :: ls)) ++ LF)%string
      with ((l ++ LF) ++ (joined (l2 :: ls) ++ LF))%string
      by (rewrite !append_assoc; reflexivity).
    rewrite rstrip_app, IH, append_assoc; [reflexivity | ].
    rewrite IH. apply joined_nonempty. apply ends_clean_nonempty. exact H.
Qed.

Lemma splitlines_joined (ls : list string) :
  forallb no_linebreak ls = true ->
  last ls EmptyString <> EmptyString ->
  Str.splitlines (joined ls) = ls.
Proof.
  induction ls as [ | l ls IH]; intros Hl Hn; [reflexivity | ].
  cbn [forallb] in Hl. apply andb_true_iff in Hl. destruct Hl as [Hl Hls].
  destruct ls as [ | l2 ls].
  - apply splitlines_single; assumption.
  - change (joined (l :: l2 :: ls)) with (l ++ LF ++ joined (l2 :: ls))%string.
    rewrite (splitlines_line _ _ Hl), IH; [reflexivity | exact Hls | exact Hn].
Qed.

Lemma starts_clean_app (a b : string) :
  starts_clean a = true -> starts_clean (a ++ b) = true.
Proof. destruct a; [discriminate | intros H; exact H]. Qed.

(** The lines of a text written line by line are the lines written. *)
Lemma text_lines_unlines (ls : list string) :
  forallb no_linebreak ls = true ->
  starts_clean (hd EmptyString ls) = true ->
  ends_clean (last ls EmptyString) = true ->
  text_lines (unlines ls) = ls.
Proof.
  intros Hl Hs He. unfold text_lines, Str.strip.
  assert (Hne : ls <> []) by (destruct ls; [discriminate | discriminate]).
  rewrite (unlines_joined _ Hne).
  rewrite lstrip_clean.
  - rewrite (rstrip_joined _ He).
    apply splitlines_joined; [exact Hl | apply ends_clean_nonempty; exact He].
  - apply starts_clean_app. destruct ls as [ | l [ | l2 ls]]; [discriminate | exact Hs | ].
    change (joined (l :: l2 :: ls)) with (l ++ LF ++ joined (l2 :: ls))%string.
    apply starts_clean_app. exact Hs.
Qed.

(** In a standard-meteorology text written line by line, the reading is
    that of the first row after the units line, whatever rows follow. *)
Lemma stdmet_parses_first_data_row (header units row : string) (older : list string) :
  forallb no_linebreak (header :: units :: row :: older) = true ->
  starts_clean header = true ->
  ends_clean (last (row :: older) EmptyString) = true ->
  parse_stdmet (unlines (header :: units :: row :: older))
  = Ok (reading_of_row (Str.split row)).
Proof.
  intros Hl Hs He. rewrite parse_stdmet_spec. unfold reading_of_line.
  rewrite text_lines_unlines; [reflexivity | exact Hl | exact Hs | exact He].
Qed.

(** * Further properties of the buoy path *)

(** X1: whatever the text, [parse_spectral] raises nothing and returns the
    empty list: the row of the alpha1 file is split and its time formatted,
    but no entry is ever added. *)
Theorem parse_spectral_returns_nothing (text : string) :
  parse_spectral text = Ok [].
Proof.
  unfold parse_spectral.
  destruct (Str.splitlines (Str.strip text)) as [ | l0 [ | l1 [ | l2 rest]]];
    try reflexivity.
  simpl. destruct (Nat.ltb (List.length (Str.split l2)) 7) eqn:H; [reflexivity | ].
  destruct (time_string_total _ H) as [t ->]. reflexivity.
Qed.

(** A number that compares equal to a finite number is that number. *)
Lemma SFeqb_finite (f : float) (s : bool) (m : positive) (e : Z) :
  SFeqb f (S754_finite s m e) = true -> f = S754_finite s m e.
Proof.
  unfold SFeqb. destruct f as [s' | s' | | s' m' e']; cbn [SFcompare].
  - destruct s; discriminate.
  - destruct s'; discriminate.
  - discriminate.
  - assert (Hm : Pos.compare_cont Eq m' m = (m' ?= m)%positive) by reflexivity.
    destruct s', s; try discriminate;
      destruct (Z.compare_spec e' e) as [-> | | ]; try discriminate;
      rewrite Hm; destruct (Pos.compare_spec m' m) as [-> | | ];
      simpl; try discriminate; reflexivity.
Qed.

Lemma literal_9_9 : Float.literal "9.9" = S754_finite false 5573204538870989 (-49).
Proof. vm_compute. reflexivity. Qed.

(** X2: the wave-height filter is the plain filter followed by the ceiling:
    a value equal to the extra sentinel 9.9 is above 8.0 anyway, so listing
    it changes no result. *)
Theorem wave_filter_is_ceiling (val : string) :
  safe_float_wave val
  = match safe_float val [] with
    | Some x => if Float.gtb x CEILING then None else Some x
    | None => None
    end.
Proof.
  unfold safe_float_wave, CEILING.
  destruct (Float.of_string val) as [f | ] eqn:Hf.
  - rewrite !(safe_float_parsed _ _ _ Hf).
    destruct (mem f MISSING_VALS); [reflexivity | ].
    cbn [orb mem existsb]. rewrite orb_false_r.
    destruct (Float.eqb f (Float.literal "9.9")) eqn:E; [ | reflexivity].
    rewrite literal_9_9 in E. apply SFeqb_finite in E. subst f.
    vm_compute. reflexivity.
  - unfold safe_float. rewrite Hf. reflexivity.
Qed.

Lemma reading_of_row_firstn (row : list string) :
  reading_of_row row = reading_of_row (firstn 15 row).
Proof.
  do 15 (destruct row as [ | ? row]; [reflexivity | ]). reflexivity.
Qed.

(** X3: the reading depends on line 2 only, and on its first 15 fields
    only: two texts of at least three lines whose rows at line 2 agree on
    these fields are parsed to the same result. *)
Theorem reading_depends_on_15_fields (text text' a0 a1 a2 b0 b1 b2 : string)
    (older older' : list string) :
  text_lines text = a0 :: a1 :: a2 :: older ->
  text_lines text' = b0 :: b1 :: b2 :: older' ->
  firstn 15 (Str.split a2) = firstn 15 (Str.split b2) ->
  parse_stdmet text = parse_stdmet text'.
Proof.
  intros Ha Hb H. rewrite !parse_stdmet_spec. unfold reading_of_line.
  rewrite Ha, Hb. cbn [nth_error].
  rewrite (reading_of_row_firstn (Str.split a2)), H, <- reading_of_row_firstn.
  reflexivity.
Qed.

(** X4: the two temperatures are read only from a row that is long enough:
    the air temperature needs more than 13 fields, the water temperature
    more than 14; on a shorter row they are absent and the other fields are
    still returned. *)
Theorem temperatures_need_columns (text l0 l1 l2 : string) (older : list string) :
  text_lines text = l0 :: l1 :: l2 :: older ->
  13 <= List.length (Str.split l2) ->
  exists r,
    parse_stdmet text = Ok (Some r)
    /\ airTemp_C r
       = (if Nat.ltb 13 (List.length (Str.split l2))
          then safe_float (column (Str.split l2) 13) [] else None)
    /\ waterTemp_C r
       = (if Nat.ltb 14 (List.length (Str.split l2))
          then safe_float (column (Str.split l2) 14) [] else None).
Proof.
  intros Hl Hn. rewrite parse_stdmet_spec. unfold reading_of_line.
  rewrite Hl. cbn [nth_error]. unfold reading_of_row.
  assert (E : Nat.ltb (List.length (Str.split l2)) 13 = false)
    by (apply Nat.ltb_ge; exact Hn).
  rewrite E. eexists. split; [reflexivity | ].
  cbn [airTemp_C waterTemp_C]. unfold optional_column, column.
  remember (Str.split l2) as row eqn:Hrow. clear Hrow E Hl.
  do 13 (destruct row as [ | ? row]; [simpl in Hn; lia | ]).
  destruct row as [ | r13 [ | r14 row]]; split; reflexivity.
Qed.

Lemma safe_float_not_sentinel (val : string) (extra : list float) (f : float) :
  safe_float val extra = Some f -> ~ is_sentinel f.
Proof. intros H. apply (safe_float_some _ _ _ H). Qed.

Lemma optional_column_not_sentinel (row : list string) (i : nat) (f : float) :
  optional_column row i = Some f -> ~ is_sentinel f.
Proof.
  unfold optional_column. destruct (nth_error row i); [ | discriminate].
  apply safe_float_not_sentinel.
Qed.

(** X5: no numeric field of a reading holds a sentinel: a field that is
    present differs from 99, 999 and 9999, and the wave height differs from
    9.9 as well. *)
Theorem reading_holds_no_sentinel (text : string) (r : Reading) :
  parse_stdmet text = Ok (Some r) ->
  (forall f, In (Some f) (numeric_fields r) -> ~ is_sentinel f)
  /\ (forall h, waveHeight_m r = Some h -> Float.eqb h (Float.literal "9.9") = false).
Proof.
  intros H. rewrite parse_stdmet_spec in H. injection H as H.
  unfold reading_of_line in H.
  destruct (nth_error (text_lines text) 2) as [l | ]; [ | discriminate].
  unfold reading_of_row in H.
  destruct (Nat.ltb (List.length (Str.split l)) 13); [discriminate | ].
  injection H as <-. unfold numeric_fields.
  cbn [waveHeight_m dominantPeriod_s avgPeriod_s meanDirection_deg waterTemp_C
       windSpeed_mps windDir_deg pressure_hPa gust_mps airTemp_C]. split.
  - intros f Hin. cbn [In] in Hin.
    repeat (destruct Hin as [Hin | Hin];
            [first [ exact (safe_float_not_sentinel _ _ _ Hin)
                   | exact (optional_column_not_sentinel _ _ _ Hin)
                   | apply safe_float_wave_some in Hin;
                     exact (safe_float_not_sentinel _ _ _ (proj1 Hin)) ] | ]).
    contradiction.
  - intros h Hh. apply safe_float_wave_some in Hh. destruct Hh as [Hh _].
    apply safe_float_some in Hh. destruct Hh as (_ & _ & Hx).
    destruct (Float.eqb h (Float.literal "9.9")) eqn:E; [ | reflexivity].
    exfalso. apply Hx. exists (Float.literal "9.9"). split; [left; reflexivity | exact E].
Qed.

Lemma zip_present_full (F : list float) (D R : list (option float)) :
  Forall (fun v => v <> None)
    (firstn (min3 (List.length F) (List.length D) (List.length R)) D) ->
  Forall (fun v => v <> None)
    (firstn (min3 (List.length F) (List.length D) (List.length R)) R) ->
  List.length (zip_present F D R)
  = min3 (List.length F) (List.length D) (List.length R).
Proof.
  unfold min3. revert D R. induction F as [ | f F IH]; intros D R HD HR; [reflexivity | ].
  destruct D as [ | d D]; [reflexivity | ].
  destruct R as [ | r R]; [destruct d; simpl; lia | ].
  cbn [List.length] in *. rewrite <- !Nat.succ_min_distr in *.
  cbn [firstn] in HD, HR. inversion HD as [ | ? ? Hd HD']. inversion HR as [ | ? ? Hr HR'].
  subst. destruct d as [d | ]; [ | congruence]. destruct r as [r | ]; [ | congruence].
  cbn [zip_present List.length]. f_equal. apply IH; assumption.
Qed.

(** X6: when the two guards pass and no density and no direction below the
    shortest of the three lengths is absent, the spectrum has exactly that
    many bins, one for every index. *)
Theorem merge_complete_without_gaps (spec_text swdir_text : string) :
  Nat.ltb (List.length (text_lines spec_text)) 3 = false ->
  Nat.ltb (List.length (text_lines swdir_text)) 3 = false ->
  Nat.ltb (List.length (data_row spec_text)) 7 = false ->
  Nat.ltb (List.length (data_row swdir_text)) 7 = false ->
  Forall (fun v => v <> None)
    (firstn (min3 (List.length (frequency_series spec_text))
               (List.length (value_series spec_text))
               (List.length (value_series swdir_text)))
       (value_series spec_text)) ->
  Forall (fun v => v <> None)
    (firstn (min3 (List.length (frequency_series spec_text))
               (List.length (value_series spec_text))
               (List.length (value_series swdir_text)))
       (value_series swdir_text)) ->
  exists entries,
    parse_data_spec spec_text swdir_text = Ok entries
    /\ List.length entries
       = min3 (List.length (frequency_series spec_text))
           (List.length (value_series spec_text))
           (List.length (value_series swdir_text)).
Proof.
  intros H1 H2 H3 H4 HD HR. eexists. split.
  - rewrite parse_data_spec_spec, H1, H2, H3, H4. reflexivity.
  - apply zip_present_full; assumption.
Qed.

Lemma merge_complete_without_gaps_example :
  exists entries,
    parse_data_spec spec_two swdir_two = Ok entries /\ List.length entries = 2.
Proof.
  destruct (merge_complete_without_gaps spec_two swdir_two) as (entries & H & Hn);
    try (vm_compute; reflexivity).
  - vm_compute. repeat constructor; discriminate.
  - vm_compute. repeat constructor; discriminate.
  - exists entries. split; [exact H | ]. rewrite Hn. vm_compute. reflexivity.
Defined.

(** X20: the spectrum depends on three lines only, lines 1 and 2 of the
    density text and line 2 of the direction text: the first line of either
    text, the lines after the third and the whole units line of the
    direction text, with the frequencies it lists, are never looked at. *)
Theorem spectrum_depends_on_three_lines
    (spec_text spec_text' swdir_text swdir_text' : string)
    (a0 b0 c0 c1 d0 d1 units density direction : string)
    (ra rb rc rd : list string) :
  text_lines spec_text = a0 :: units :: density :: ra ->
  text_lines spec_text' = b0 :: units :: density :: rb ->
  text_lines swdir_text = c0 :: c1 :: direction :: rc ->
  text_lines swdir_text' = d0 :: d1 :: direction :: rd ->
  parse_data_spec spec_text swdir_text = parse_data_spec spec_text' swdir_text'.
Proof.
  intros Ha Hb Hc Hd. rewrite !parse_data_spec_spec.
  unfold frequency_series, value_series, data_row. rewrite Ha, Hb, Hc, Hd.
  reflexivity.
Qed.

Lemma spectrum_depends_on_three_lines_example :
  parse_data_spec spec_two swdir_two = parse_data_spec spec_two swdir_other_units.
Proof.
  eapply (spectrum_depends_on_three_lines spec_two spec_two swdir_two swdir_other_units);
    vm_compute; reflexivity.
Defined.

(** ** The buoy fetch *)

Section BuoyFacts.

Variable World : Type.
Variable fetch_text : string -> World -> option string * World.

(** The [try] block lets nothing through. *)
Lemma fetch_spectral_absorbs (w : World) (requested : list string) :
  escaped (fetch_spectral fetch_text w requested) = None.
Proof.
  unfold fetch_spectral.
  destruct (fetch_text (buoy_url ".data_spec") w) as [[spec_text | ] w1];
    [ | reflexivity].
  destruct (fetch_text (buoy_url ".swdir") w1) as [[swdir_text | ] w2];
    [ | reflexivity].
  rewrite parse_data_spec_spec. reflexivity.
Qed.

(** X7: [fetch_buoy] fails exactly when the download of the observation
    file fails.  When that download succeeds a record is written: it holds
    the station 44097 and the reading of line 2 of the file; its spectrum is
    empty when the download of the density file or of the direction file
    fails, and when both succeed it is what [parse_data_spec] returns for the
    two texts downloaded. *)
Theorem buoy_fetch_fails_only_on_observation (w : World) :
  (forall w0,
      fetch_text (buoy_url ".txt") w = (None, w0) ->
      fst (fst (fetch_buoy fetch_text w)) = Failed (FetchFailed (buoy_url ".txt")))
  /\ (forall text w0,
        fetch_text (buoy_url ".txt") w = (Some text, w0) ->
        exists r,
          fst (fst (fetch_buoy fetch_text w)) = Done r
          /\ buoy r = "44097"
          /\ stdmet r = reading_of_line text 2
          /\ (forall w1,
                fetch_text (buoy_url ".data_spec") w0 = (None, w1) ->
                spectral r = [])
          /\ (forall spec_text w1 w2,
                fetch_text (buoy_url ".data_spec") w0 = (Some spec_text, w1) ->
                fetch_text (buoy_url ".swdir") w1 = (None, w2) ->
                spectral r = [])
          /\ (forall spec_text w1 swdir_text w2,
                fetch_text (buoy_url ".data_spec") w0 = (Some spec_text, w1) ->
                fetch_text (buoy_url ".swdir") w1 = (Some swdir_text, w2) ->
                parse_data_spec spec_text swdir_text = Ok (spectral r))).
Proof.
  split.
  - intros w0 H. unfold fetch_buoy. rewrite H. reflexivity.
  - intros text w0 H. unfold fetch_buoy. rewrite H, parse_stdmet_spec.
    rewrite fetch_spectral_absorbs. eexists. split; [reflexivity | ].
    cbn [buoy stdmet spectral]. split; [reflexivity | split; [reflexivity | ]].
    unfold fetch_spectral. split; [ | split].
    + intros w1 H1. rewrite H1. reflexivity.
    + intros spec_text w1 w2 H1 H2. rewrite H1, H2. reflexivity.
    + intros spec_text w1 swdir_text w2 H1 H2. rewrite H1, H2.
      rewrite parse_data_spec_spec. reflexivity.
Qed.

(** X8: the files are requested in the order observation, density,
    direction, each at most once, and a request is made only when the one
    before it succeeded: one request when the observation fails, two when
    the density fails, three otherwise. *)
Theorem buoy_fetch_requests (w : World) :
  let asked := snd (fetch_buoy fetch_text w) in
  match fetch_text (buoy_url ".txt") w with
  | (None, _) => asked = [buoy_url ".txt"]
  | (Some _, w0) =>
      match fetch_text (buoy_url ".data_spec") w0 with
      | (None, _) => asked = [buoy_url ".txt"; buoy_url ".data_spec"]
      | (Some _, _) =>
          asked = [buoy_url ".txt"; buoy_url ".data_spec"; buoy_url ".swdir"]
      end
  end.
Proof.
  intros asked. unfold asked, fetch_buoy.
  destruct (fetch_text (buoy_url ".txt") w) as [[text | ] w0]; [ | reflexivity].
  rewrite parse_stdmet_spec, fetch_spectral_absorbs. cbn [snd].
  unfold fetch_spectral.
  destruct (fetch_text (buoy_url ".data_spec") w0) as [[spec_text | ] w1];
    [ | reflexivity].
  destruct (fetch_text (buoy_url ".swdir") w1) as [[swdir_text | ] w2];
    [ | reflexivity].
  rewrite parse_data_spec_spec. reflexivity.
Qed.

End BuoyFacts.

(** * Further properties of the forecast path *)

(** The keys of a dictionary, in order. *)
Lemma dict_set_keys (d : dict) (k : string) (v : option float) :
  map fst (dict_set d k v)
  = if existsb (String.eqb k) (map fst d) then map fst d else map fst d ++ [k].
Proof.
  induction d as [ | [k0 v0] d IH]; [reflexivity | ].
  cbn [dict_set map fst existsb]. rewrite (String.eqb_sym k k0).
  destruct (String.eqb k0 k) eqn:E; cbn [orb map fst].
  - apply String.eqb_eq in E. subst k0. reflexivity.
  - rewrite IH. destruct (existsb (String.eqb k) (map fst d)); reflexivity.
Qed.

Lemma dict_get_key (d : dict) (k : string) (v : option float) :
  dict_get d k = Some v -> existsb (String.eqb k) (map fst d) = true.
Proof.
  induction d as [ | [k0 v0] d IH]; [discriminate | ].
  cbn [dict_get map fst existsb]. rewrite (String.eqb_sym k k0).
  destruct (String.eqb k0 k); [reflexivity | exact IH].
Qed.

Lemma forecast_vars_distinct : NoDup FORECAST_VARS.
Proof.
  unfold FORECAST_VARS.
  repeat (constructor; [cbn [In]; intuition discriminate | ]). constructor.
Qed.

Section ExtractorFacts.

Variable Timestamp : Type.
Variable str_time : Timestamp -> string.
Variable p : Point Timestamp.

Lemma read_fold_keys (t : Timestamp) (vars : list string) (rec : dict) :
  NoDup vars ->
  (forall v, In v vars -> existsb (String.eqb v) (map fst rec) = false) ->
  map fst
    (fold_left
       (fun rec var =>
          match data_var p var with
          | Some series =>
              let val := series t in
              dict_set rec var
                (if Float.eqb val val then Some (Float.round val 2) else None)
          | None => rec
          end) vars rec)
  = map fst rec ++ filter (in_dataset p) vars.
Proof.
  revert rec. induction vars as [ | v vars IH]; intros rec Hnd Hfresh.
  - simpl. rewrite app_nil_r. reflexivity.
  - inversion Hnd as [ | ? ? Hv Hnd']. subst.
    cbn [fold_left filter]. unfold in_dataset at 1.
    destruct (data_var p v) as [series | ] eqn:Hs.
    + rewrite IH; [ | exact Hnd' | ].
      * cbn zeta. rewrite dict_set_keys, (Hfresh v (or_introl eq_refl)).
        rewrite <- app_assoc. reflexivity.
      * intros u Hu. cbn zeta. rewrite dict_set_keys, (Hfresh v (or_introl eq_refl)).
        rewrite existsb_app, (Hfresh u (or_intror Hu)). cbn [existsb orb].
        rewrite orb_false_r. apply String.eqb_neq. intros ->. contradiction.
    + apply IH; [exact Hnd' | ]. intros u Hu. apply Hfresh. right. exact Hu.
Qed.

Lemma validate_keys (rec : dict) :
  map fst (validate_wave_height rec) = map fst rec.
Proof.
  unfold validate_wave_height.
  destruct (dict_get rec "htsgwsfc") as [[h | ] | ] eqn:Hg; try reflexivity.
  destruct (Float.truthy h && Float.gtb h (Float.literal "8.0")); [ | reflexivity].
  rewrite dict_set_keys, (dict_get_key _ _ _ Hg). reflexivity.
Qed.

End ExtractorFacts.

(** X10: the keys of an hour are the requested variables that the dataset
    has, in the order of the request and each once: a variable the dataset
    lacks is left out, and the test on the wave height adds and removes no
    key. *)
Theorem hour_keys_are_dataset_variables {Timestamp : Type}
    (str_time : Timestamp -> string) (p : Point Timestamp) (t : Timestamp) :
  map fst (hour_vars (extract_hour str_time p t)) = filter (in_dataset p) FORECAST_VARS
  /\ NoDup (map fst (hour_vars (extract_hour str_time p t))).
Proof.
  assert (H : map fst (hour_vars (extract_hour str_time p t))
              = filter (in_dataset p) FORECAST_VARS).
  { unfold extract_hour. cbn [hour_vars]. rewrite validate_keys. unfold read_vars.
    rewrite read_fold_keys; [reflexivity | exact forecast_vars_distinct | ].
    intros v _. reflexivity. }
  split; [exact H | ]. rewrite H. apply NoDup_filter. exact forecast_vars_distinct.
Qed.

(** X11: no hour holds a NaN: a value that is present, of any variable, is
    a number. *)
Theorem hour_values_are_numbers {Timestamp : Type} (str_time : Timestamp -> string)
    (p : Point Timestamp) (t : Timestamp) (var : string) (v : float) :
  dict_get (hour_vars (extract_hour str_time p t)) var = Some (Some v) ->
  v <> Float.nan.
Proof.
  rewrite extract_hour_get.
  destruct (existsb (String.eqb var) FORECAST_VARS); [ | discriminate].
  destruct (data_var p var) as [series | ]; [ | discriminate].
  cbn [option_map]. unfold normalized.
  destruct (Float.eqb (series t) (series t)) eqn:E; [ | discriminate].
  cbn zeta. destruct (_ && _); [discriminate | ].
  intros H. injection H as <-. apply round_not_nan. apply eqb_self. exact E.
Qed.

Lemma hour_values_are_numbers_example :
  Float.literal "99.0" <> Float.nan.
Proof.
  apply (hour_values_are_numbers sample_str_time sample_point 0 "perpwsfc").
  vm_compute. reflexivity.
Defined.

Lemma has_slash_app (a b : string) :
  existsb (Ascii.eqb "/") (list_ascii_of_string (a ++ String "/" b)) = true.
Proof.
  induction a as [ | c a IH]; simpl; [reflexivity | ].
  rewrite IH. apply orb_true_r.
Qed.

(** What follows the last slash of a text is what follows a slash after
    which there is none. *)
Lemma last_segment_after_slash (a b : string) :
  existsb (Ascii.eqb "/") (list_ascii_of_string b) = false ->
  last_segment (a ++ String "/" b) = b.
Proof.
  intros Hb. induction a as [ | c a IH].
  - cbn [String.append last_segment]. rewrite Hb. reflexivity.
  - cbn [String.append last_segment]. rewrite has_slash_app. exact IH.
Qed.

Lemma last_segment_run_url (date cycle : string) :
  In cycle CYCLES ->
  last_segment (run_url date cycle) = ("gfswave.global.0p16_" ++ cycle ++ "z")%string.
Proof.
  intros Hc. unfold run_url.
  replace (NOMADS_BASE ++ "/" ++ date ++ "/gfswave.global.0p16_" ++ cycle ++ "z")%string
    with ((NOMADS_BASE ++ "/" ++ date)
          ++ String "/" ("gfswave.global.0p16_" ++ cycle ++ "z"))%string
    by (rewrite !append_assoc; reflexivity).
  apply last_segment_after_slash.
  destruct Hc as [<- | [<- | [<- | []]]]; reflexivity.
Qed.

Lemma candidate_is_run_url (date_str : nat -> string) (u : string) :
  In u (candidates date_str) ->
  exists day cycle, day < 3 /\ In cycle CYCLES /\ u = run_url (date_str day) cycle.
Proof.
  unfold candidates, CYCLES. cbn [In].
  intros [<- | [<- | [<- | [<- | [<- | [<- | [<- | [<- | [<- | []]]]]]]]]];
    [exists 0, "12" | exists 0, "06" | exists 0, "00"
     | exists 1, "12" | exists 1, "06" | exists 1, "00"
     | exists 2, "12" | exists 2, "06" | exists 2, "00"];
    (split; [lia | split; [cbn [In]; tauto | reflexivity]]).
Qed.

Lemma gfs_longitude : Float.add (Float.literal "360") TARGET_LON = Float.literal "288.4".
Proof. vm_compute. reflexivity. Qed.

(** X12: a forecast that is returned names the run that opened: its field
    [run] is the file name of that run, [gfswave.global.0p16_] followed by
    the cycle and [z], whatever the text of the date; its hours are those of
    the grid point selected at latitude 41.003 and longitude 288.4 in the
    dataset of that run. *)
Theorem forecast_names_the_run_found {Dataset World Timestamp : Type}
    (open_dataset : string -> World -> option Dataset * World)
    (date_str : nat -> string) (str_time : Timestamp -> string)
    (sel_nearest : Dataset -> float -> float -> Point Timestamp)
    (installed : bool) (w : World) (r : Forecast) :
  fetch_forecast open_dataset date_str str_time sel_nearest installed w = Ok r ->
  exists d day cycle,
    day < 3 /\ In cycle CYCLES
    /\ locate_run open_dataset date_str w = Ok (d, run_url (date_str day) cycle)
    /\ run r = ("gfswave.global.0p16_" ++ cycle ++ "z")%string
    /\ model r = "GFS-Wave"
    /\ hours r
       = extract_hours str_time (sel_nearest d TARGET_LAT (Float.literal "288.4")).
Proof.
  unfold fetch_forecast. destruct installed; [ | discriminate]. cbn [negb].
  destruct (sweep_is_first_success Dataset World open_dataset date_str w) as [_ Ho].
  destruct (locate_run open_dataset date_str w) as [[d u] | e] eqn:Hl; [ | discriminate].
  cbn [bind]. cbv zeta. rewrite gfs_longitude. intros H. injection H as <-.
  assert (Hin : In u (candidates date_str)).
  { destruct (first_success_found Dataset World open_dataset (candidates date_str) w d u)
      as (pre & post & Hc & _).
    - destruct (fst (first_success open_dataset (candidates date_str) w));
        [injection Ho as ->; reflexivity | discriminate].
    - rewrite Hc. apply in_or_app. right. left. reflexivity. }
  destruct (candidate_is_run_url _ _ Hin) as (day & cycle & Hd & Hc & ->).
  exists d, day, cycle.
  repeat split; try assumption. apply last_segment_run_url. exact Hc.
Qed.

Lemma forecast_names_the_run_found_example :
  exists d day cycle,
    day < 3 /\ In cycle CYCLES
    /\ locate_run sample_open sample_date_str tt
       = Ok (d, run_url (sample_date_str day) cycle)
    /\ run sample_forecast = ("gfswave.global.0p16_" ++ cycle ++ "z")%string
    /\ model sample_forecast = "GFS-Wave"
    /\ hours sample_forecast
       = extract_hours sample_str_time
           ((fun _ _ _ => sample_point) d TARGET_LAT (Float.literal "288.4")).
Proof.
  apply (forecast_names_the_run_found sample_open sample_date_str sample_str_time
           (fun _ _ _ => sample_point) true tt sample_forecast).
  vm_compute. reflexivity.
Defined.

(** * Properties of the station list *)

Lemma span_inv (p : ascii -> bool) (s a b : string) :
  Stations.span p s = (a, b) ->
  s = (a ++ b)%string /\ all_chars p a = true /\ head_fails p b = true.
Proof.
  revert a b. induction s as [ | c s IH]; intros a b; cbn [Stations.span].
  - intros H. injection H as <- <-. repeat split.
  - destruct (p c) eqn:Hc.
    + destruct (Stations.span p s) as [a' b'].
      intros H. injection H as <- <-.
      destruct (IH a' b' eq_refl) as (-> & Ha & Hb).
      cbn [all_chars]. rewrite Hc, Ha. repeat split. exact Hb.
    + intros H. injection H as <- <-. cbn [head_fails]. rewrite Hc. repeat split.
Qed.

Lemma span_app (p : ascii -> bool) (a b : string) :
  all_chars p a = true -> head_fails p b = true ->
  Stations.span p (a ++ b) = (a, b).
Proof.
  intros Ha Hb. induction a as [ | c a IH].
  - destruct b as [ | c b]; cbn [String.append Stations.span]; [reflexivity | ].
    cbn [head_fails] in Hb. apply negb_true_iff in Hb. rewrite Hb. reflexivity.
  - cbn [all_chars] in Ha. apply andb_true_iff in Ha. destruct Ha as [Hc Ha].
    cbn [String.append Stations.span]. rewrite Hc, (IH Ha). reflexivity.
Qed.

Lemma head_fails_app (p q : ascii -> bool) (w t : string) :
  (forall c, q c = true -> p c = false) ->
  all_chars q w = true -> head_fails p t = true -> head_fails p (w ++ t) = true.
Proof.
  intros Hpq Hw Ht. destruct w as [ | c w]; [exact Ht | ].
  cbn [all_chars] in Hw. apply andb_true_iff in Hw. destruct Hw as [Hc _].
  cbn [String.append head_fails]. rewrite (Hpq c Hc). reflexivity.
Qed.

Lemma space_not_coordinate (c : ascii) :
  Str.isspace c = true -> Stations.is_coordinate_char c = false.
Proof.
  destruct c as [[ | ] [ | ] [ | ] [ | ] [ | ] [ | ] [ | ] [ | ]];
    vm_compute; congruence.
Qed.

Lemma coordinate_not_space (c : ascii) :
  Stations.is_coordinate_char c = true -> Str.isspace c = false.
Proof.
  intros H. destruct (Str.isspace c) eqn:E; [ | reflexivity].
  rewrite (space_not_coordinate _ E) in H. discriminate.
Qed.

Lemma is_empty_false (s : string) : s <> EmptyString -> Stations.is_empty s = false.
Proof. destruct s; [congruence | reflexivity]. Qed.

Lemma is_empty_true (s : string) : Stations.is_empty s = true -> s = EmptyString.
Proof. destruct s; [reflexivity | discriminate]. Qed.

Lemma match_location_sound (loc g1 g3 : string) (h1 h3 : ascii) :
  Stations.match_location loc = Some (g1, h1, g3, h3) ->
  location_pattern loc g1 h1 g3 h3.
Proof.
  unfold Stations.match_location, location_pattern.
  destruct (Stations.span Stations.is_coordinate_char loc) as [a1 r1] eqn:S1.
  destruct (Stations.is_empty a1) eqn:E1; [discriminate | ].
  destruct (Stations.span Str.isspace r1) as [w1 r2] eqn:S2.
  destruct r2 as [ | c1 r3]; [discriminate | ].
  destruct (Ascii.eqb c1 "N" || Ascii.eqb c1 "S") eqn:Hh1; [ | discriminate].
  destruct (Stations.span Str.isspace r3) as [w2 r4] eqn:S3.
  destruct (Stations.is_empty w2) eqn:E2; [discriminate | ].
  destruct (Stations.span Stations.is_coordinate_char r4) as [a3 r5] eqn:S4.
  destruct (Stations.is_empty a3) eqn:E3; [discriminate | ].
  destruct (Stations.span Str.isspace r5) as [w3 r6] eqn:S5.
  destruct r6 as [ | c3 rest]; [discriminate | ].
  destruct (Ascii.eqb c3 "E" || Ascii.eqb c3 "W") eqn:Hh3; [ | discriminate].
  intros H. injection H as <- <- <- <-.
  destruct (span_inv _ _ _ _ S1) as (-> & A1 & _).
  destruct (span_inv _ _ _ _ S2) as (-> & A2 & _).
  destruct (span_inv _ _ _ _ S3) as (-> & A3 & _).
  destruct (span_inv _ _ _ _ S4) as (-> & A4 & _).
  destruct (span_inv _ _ _ _ S5) as (-> & A5 & _).
  exists w1, w2, w3, rest.
  apply orb_true_iff in Hh1. rewrite !Ascii.eqb_eq in Hh1.
  apply orb_true_iff in Hh3. rewrite !Ascii.eqb_eq in Hh3.
  repeat split; try assumption.
  + intros ->. discriminate.
  + intros ->. discriminate.
  + intros ->. discriminate.
Qed.

Lemma match_location_complete (loc g1 g3 : string) (h1 h3 : ascii) :
  location_pattern loc g1 h1 g3 h3 ->
  Stations.match_location loc = Some (g1, h1, g3, h3).
Proof.
  unfold Stations.match_location, location_pattern.
  intros (w1 & w2 & w3 & rest & -> & N1 & A1 & A2 & Hh1 & N2 & A3 & N3 & A4 & A5 & Hh3).
  assert (F1 : head_fails Str.isspace (String h1 (w2 ++ g3 ++ w3 ++ String h3 rest)) = true)
    by (destruct Hh1 as [-> | ->]; reflexivity).
  assert (F1' : head_fails Stations.is_coordinate_char
                  (String h1 (w2 ++ g3 ++ w3 ++ String h3 rest)) = true)
    by (destruct Hh1 as [-> | ->]; reflexivity).
  assert (F3 : head_fails Str.isspace (String h3 rest) = true)
    by (destruct Hh3 as [-> | ->]; reflexivity).
  assert (F3' : head_fails Stations.is_coordinate_char (String h3 rest) = true)
    by (destruct Hh3 as [-> | ->]; reflexivity).
  rewrite (span_app _ g1 _ A1
             (head_fails_app _ _ w1 _ space_not_coordinate A2 F1')).
  rewrite (is_empty_false _ N1), (span_app _ w1 _ A2 F1).
  assert (Hh : Ascii.eqb h1 "N" || Ascii.eqb h1 "S" = true)
    by (destruct Hh1 as [-> | ->]; reflexivity).
  rewrite Hh.
  assert (F2 : head_fails Str.isspace (g3 ++ w3 ++ String h3 rest) = true).
  { destruct g3 as [ | c g3]; [congruence | ].
    cbn [all_chars] in A4. apply andb_true_iff in A4. destruct A4 as [Hc _].
    cbn [String.append head_fails]. rewrite (coordinate_not_space _ Hc). reflexivity. }
  rewrite (span_app _ w2 _ A3 F2), (is_empty_false _ N2).
  rewrite (span_app _ g3 _ A4
             (head_fails_app _ _ w3 _ space_not_coordinate A5 F3')).
  rewrite (is_empty_false _ N3), (span_app _ w3 _ A5 F3).
  assert (Hh' : Ascii.eqb h3 "E" || Ascii.eqb h3 "W" = true)
    by (destruct Hh3 as [-> | ->]; reflexivity).
  rewrite Hh'. reflexivity.
Qed.

(** X13: the groups [match_location] returns are the groups of the pattern:
    a text matches with groups [g1], [h1], [g3], [h3] exactly when it can be
    cut as the pattern says, and then in one way only, the runs of digits
    and dots being the longest ones. *)
Theorem match_location_is_the_pattern (loc g1 g3 : string) (h1 h3 : ascii) :
  Stations.match_location loc = Some (g1, h1, g3, h3)
  <-> location_pattern loc g1 h1 g3 h3.
Proof.
  split; [apply match_location_sound | apply match_location_complete].
Qed.

(** ** The sign of a coordinate *)

Lemma binary_round_aux_signed (s : bool) (m e : Z) (l : location) :
  (0 <= m)%Z -> signed_as s (binary_round_aux Float.prec Float.emax s m e l).
Proof.
  intros H. unfold binary_round_aux.
  pose proof (shr_fexp_nonneg m e l H) as H1.
  destruct (shr_fexp Float.prec Float.emax m e l) as [mrs' e']. simpl in H1.
  pose proof (shr_fexp_nonneg _ e' loc_Exact
                (round_nearest_even_nonneg _ (loc_of_shr_record mrs') H1)) as H2.
  destruct (shr_fexp Float.prec Float.emax
              (round_nearest_even (shr_m mrs') (loc_of_shr_record mrs')) e' loc_Exact)
    as [mrs'' e'']. simpl in H2.
  destruct (shr_m mrs'') as [ | q | q]; [reflexivity | | lia].
  destruct (e'' <=? Float.emax - Float.prec)%Z; reflexivity.
Qed.

Lemma of_ratio_signed (s : bool) (n d : positive) : signed_as s (Float.of_ratio s n d).
Proof.
  unfold Float.of_ratio, SFdiv, SFdiv_core_binary.
  set (e' := Z.min _ _). set (m' := match (0 - 0 - e')%Z with Z0 => _ | _ => _ end).
  assert (Hm : (0 <= m')%Z).
  { unfold m'. destruct (0 - 0 - e')%Z; try lia.
    rewrite Z.shiftl_mul_pow2 by lia. apply Z.mul_nonneg_nonneg; lia. }
  pose proof (Z.div_pos m' (Zpos d) Hm ltac:(lia)) as Hq.
  unfold Z.div in Hq. destruct (Z.div_eucl m' (Z.pos d)) as [q r]. simpl in Hq.
  rewrite xorb_false_r. apply binary_round_aux_signed. exact Hq.
Qed.

Lemma of_decimal_signed (s : bool) (m e : Z) : signed_as s (Float.of_decimal s m e).
Proof.
  unfold Float.of_decimal. destruct m as [ | q | q]; try reflexivity.
  destruct e; apply of_ratio_signed.
Qed.

Lemma coordinate_not_float_space (c : ascii) :
  Stations.is_coordinate_char c = true -> Float.isspace c = false.
Proof.
  destruct c as [[ | ] [ | ] [ | ] [ | ] [ | ] [ | ] [ | ] [ | ]];
    vm_compute; congruence.
Qed.

Lemma coordinate_not_underscore (c : ascii) :
  Stations.is_coordinate_char c = true -> Float.is_underscore c = false.
Proof.
  destruct c as [[ | ] [ | ] [ | ] [ | ] [ | ] [ | ] [ | ] [ | ]];
    vm_compute; congruence.
Qed.

Lemma coordinate_no_sign (c : ascii) (s : string) :
  Stations.is_coordinate_char c = true -> Float.sign (String c s) = (false, String c s).
Proof.
  destruct c as [[ | ] [ | ] [ | ] [ | ] [ | ] [ | ] [ | ] [ | ]];
    intros H; try reflexivity; vm_compute in H; discriminate H.
Qed.

Lemma coordinate_not_letter_n (c : ascii) :
  Stations.is_coordinate_char c = true -> Ascii.eqb (Str.lower c) "n" = false.
Proof.
  destruct c as [[ | ] [ | ] [ | ] [ | ] [ | ] [ | ] [ | ] [ | ]];
    vm_compute; congruence.
Qed.

Lemma float_lstrip_coordinate (g : string) :
  all_chars Stations.is_coordinate_char g = true -> Float.lstrip g = g.
Proof.
  destruct g as [ | c g]; [reflexivity | ].
  cbn [all_chars]. intros H. apply andb_true_iff in H. destruct H as [Hc _].
  cbn [Float.lstrip]. rewrite (coordinate_not_float_space _ Hc). reflexivity.
Qed.

Lemma float_rstrip_coordinate (g : string) :
  all_chars Stations.is_coordinate_char g = true -> Float.rstrip g = g.
Proof.
  induction g as [ | c g IH]; [reflexivity | ].
  cbn [all_chars]. intros H. apply andb_true_iff in H. destruct H as [Hc Hg].
  cbn [Float.rstrip]. rewrite (IH Hg), (coordinate_not_float_space _ Hc).
  destruct g; reflexivity.
Qed.

Lemma drop_underscores_coordinate (g : string) (prev : option ascii) :
  match prev with Some q => Float.is_underscore q = false | None => True end ->
  all_chars Stations.is_coordinate_char g = true ->
  Float.drop_underscores prev g = Some g.
Proof.
  revert prev. induction g as [ | c g IH]; intros prev Hp Hg.
  - destruct prev as [q | ]; cbn [Float.drop_underscores]; [rewrite Hp | ]; reflexivity.
  - cbn [all_chars] in Hg. apply andb_true_iff in Hg. destruct Hg as [Hc Hg].
    cbn [Float.drop_underscores]. rewrite (coordinate_not_underscore _ Hc).
    assert (E : match prev with Some q => Float.is_underscore q | None => false end = false)
      by (destruct prev; [exact Hp | reflexivity]).
    rewrite E. cbn [andb].
    rewrite (IH (Some c) (coordinate_not_underscore _ Hc) Hg). reflexivity.
Qed.

(** A run of digits and dots converts to a number without sign, if it
    converts at all. *)
Lemma of_string_coordinate (g : string) (x : float) :
  all_chars Stations.is_coordinate_char g = true ->
  Float.of_string g = Some x -> signed_as false x.
Proof.
  intros Hg. unfold Float.of_string.
  rewrite (float_lstrip_coordinate _ Hg), (float_rstrip_coordinate _ Hg).
  rewrite (drop_underscores_coordinate _ None I Hg).
  assert (Hs : Float.sign g = (false, g)).
  { destruct g as [ | c g]; [reflexivity | ].
    cbn [all_chars] in Hg. apply andb_true_iff in Hg.
    apply coordinate_no_sign. apply Hg. }
  rewrite Hs. destruct (Float.parse_decimal g) as [[m e] | ].
  - intros H. injection H as <-. apply of_decimal_signed.
  - unfold Float.parse_inf_or_nan.
    destruct (String.eqb (Float.lower_all g) "inf"
              || String.eqb (Float.lower_all g) "infinity").
    + intros H. injection H as <-. reflexivity.
    + assert (Hn : String.eqb (Float.lower_all g) "nan" = false).
      { destruct g as [ | c g]; [reflexivity | ].
        cbn [all_chars] in Hg. apply andb_true_iff in Hg. destruct Hg as [Hc _].
        cbn [Float.lower_all String.eqb]. rewrite (coordinate_not_letter_n _ Hc).
        reflexivity. }
      rewrite Hn. discriminate.
Qed.

Lemma mul_signed (x : float) (s : bool) (m : positive) (e : Z) :
  signed_as false x -> signed_as s (Stations.mul x (S754_finite s m e)).
Proof.
  unfold Stations.mul.
  destruct x as [sx | sx | | sx mx ex]; cbn [signed_as SFmul]; intros H;
    try contradiction; subst sx; cbn [xorb]; try reflexivity.
  apply binary_round_aux_signed. lia.
Qed.

Lemma literal_one : Float.literal "1" = S754_finite false 4503599627370496 (-52).
Proof. vm_compute. reflexivity. Qed.

Lemma literal_minus_one : Float.literal "-1" = S754_finite true 4503599627370496 (-52).
Proof. vm_compute. reflexivity. Qed.

Lemma unsigned_not_below_zero (x : float) :
  signed_as false x -> Float.leb Float.zero x = true.
Proof.
  destruct x as [s | s | | s m e]; cbn [signed_as]; intros H;
    try contradiction; subst s; reflexivity.
Qed.

Lemma negative_not_above_zero (x : float) :
  signed_as true x -> Float.leb x Float.zero = true.
Proof.
  destruct x as [s | s | | s m e]; cbn [signed_as]; intros H;
    try contradiction; subst s; reflexivity.
Qed.

Lemma pattern_groups (loc g1 g3 : string) (h1 h3 : ascii) :
  Stations.match_location loc = Some (g1, h1, g3, h3) ->
  all_chars Stations.is_coordinate_char g1 = true
  /\ all_chars Stations.is_coordinate_char g3 = true
  /\ (h1 = "N" \/ h1 = "S")%char /\ (h3 = "E" \/ h3 = "W")%char.
Proof.
  intros H. apply match_location_sound in H.
  destruct H as (w1 & w2 & w3 & rest & _ & _ & A1 & _ & H1 & _ & _ & _ & A3 & _ & H3).
  repeat split; assumption.
Qed.

(** The coordinates [parse_location] computes from the groups of a match. *)
Lemma parse_location_matched (loc g1 g3 : string) (h1 h3 : ascii) :
  Stations.match_location loc = Some (g1, h1, g3, h3) ->
  Stations.parse_location loc
  = match Float.of_string g1, Float.of_string g3 with
    | Some x, Some y =>
        Stations.Returns
          (Some (Stations.mul x (if Ascii.eqb h1 "N" then Float.literal "1"
                                 else Float.literal "-1")),
           Some (Stations.mul y (if Ascii.eqb h3 "E" then Float.literal "1"
                                 else Float.literal "-1")))
    | _, _ => Stations.Raises Stations.ValueError
    end.
Proof.
  intros H. unfold Stations.parse_location, Stations.to_float. rewrite H.
  destruct (Float.of_string g1); [ | reflexivity].
  destruct (Float.of_string g3); reflexivity.
Qed.

(** X14: the hemisphere letters fix the signs: a latitude returned for [N]
    is a number not below zero and one for [S] a number not above zero, and
    likewise a longitude for [E] and for [W]; neither is ever a NaN. *)
Theorem hemisphere_fixes_sign (loc : string) (lat lon : float) :
  Stations.parse_location loc = Stations.Returns (Some lat, Some lon) ->
  exists g1 h1 g3 h3,
    Stations.match_location loc = Some (g1, h1, g3, h3)
    /\ (h1 = "N"%char -> Float.leb Float.zero lat = true)
    /\ (h1 = "S"%char -> Float.leb lat Float.zero = true)
    /\ (h3 = "E"%char -> Float.leb Float.zero lon = true)
    /\ (h3 = "W"%char -> Float.leb lon Float.zero = true)
    /\ lat <> Float.nan /\ lon <> Float.nan.
Proof.
  intros H.
  destruct (Stations.match_location loc) as [[[[g1 h1] g3] h3] | ] eqn:Hm.
  - destruct (pattern_groups _ _ _ _ _ Hm) as (A1 & A3 & _ & _).
    rewrite (parse_location_matched _ _ _ _ _ Hm) in H.
    destruct (Float.of_string g1) as [x | ] eqn:Hx; [ | discriminate].
    destruct (Float.of_string g3) as [y | ] eqn:Hy; [ | discriminate].
    injection H as <- <-.
    pose proof (of_string_coordinate _ _ A1 Hx) as Sx.
    pose proof (of_string_coordinate _ _ A3 Hy) as Sy.
    rewrite literal_one, literal_minus_one.
    exists g1, h1, g3, h3. split; [reflexivity | ].
    repeat split.
    + intros ->. apply unsigned_not_below_zero. apply mul_signed. exact Sx.
    + intros ->. apply negative_not_above_zero. apply mul_signed. exact Sx.
    + intros ->. apply unsigned_not_below_zero. apply mul_signed. exact Sy.
    + intros ->. apply negative_not_above_zero. apply mul_signed. exact Sy.
    + intros E.
      pose proof (mul_signed x (if Ascii.eqb h1 "N" then false else true)
                    4503599627370496 (-52) Sx) as S.
      destruct (Ascii.eqb h1 "N"); rewrite E in S; exact S.
    + intros E.
      pose proof (mul_signed y (if Ascii.eqb h3 "E" then false else true)
                    4503599627370496 (-52) Sy) as S.
      destruct (Ascii.eqb h3 "E"); rewrite E in S; exact S.
  - unfold Stations.parse_location in H. rewrite Hm in H. discriminate.
Qed.

Lemma hemisphere_fixes_sign_example :
  Float.leb (Float.literal "-23") Float.zero = true.
Proof.
  destruct (hemisphere_fixes_sign "12.000 N 23.000 W"
              (Float.literal "12") (Float.literal "-23"))
    as (g1 & h1 & g3 & h3 & Hm & _ & _ & _ & HW & _).
  - vm_compute. reflexivity.
  - apply HW. vm_compute in Hm. congruence.
Defined.

(** X15: [parse_location] returns the pair of absent values exactly when
    the text does not match the pattern, and it raises exactly when the text
    matches and one of the two runs of digits and dots is not a number, as
    with two dots; what it raises is then a [ValueError]. *)
Theorem parse_location_outcomes (loc : string) :
  (Stations.parse_location loc = Stations.Returns (None, None)
   <-> Stations.match_location loc = None)
  /\ (forall e,
        Stations.parse_location loc = Stations.Raises e
        <-> e = Stations.ValueError
            /\ exists g1 h1 g3 h3,
                 Stations.match_location loc = Some (g1, h1, g3, h3)
                 /\ (Float.of_string g1 = None \/ Float.of_string g3 = None)).
Proof.
  destruct (Stations.match_location loc) as [[[[g1 h1] g3] h3] | ] eqn:Hm.
  - rewrite (parse_location_matched _ _ _ _ _ Hm). split.
    + destruct (Float.of_string g1); [destruct (Float.of_string g3) | ];
        split; discriminate.
    + intros e. split.
      * intros H. split.
        { destruct (Float.of_string g1); [destruct (Float.of_string g3) | ];
            congruence. }
        exists g1, h1, g3, h3. split; [reflexivity | ].
        destruct (Float.of_string g1); [ | left; reflexivity].
        destruct (Float.of_string g3); [discriminate | right; reflexivity].
      * intros [-> (a1 & b1 & a3 & b3 & Heq & Hn)].
        injection Heq as <- <- <- <-.
        destruct Hn as [-> | Hn]; [reflexivity | ].
        rewrite Hn. destruct (Float.of_string g1); reflexivity.
  - unfold Stations.parse_location. rewrite Hm. split; [split; reflexivity | ].
    intros e. split; [discriminate | ].
    intros [_ (a1 & b1 & a3 & b3 & Heq & _)]. discriminate.
Qed.

Lemma parse_location_outcomes_example :
  Stations.parse_location "1.2.3 N 4 W" = Stations.Raises Stations.ValueError
  /\ Stations.parse_location "12 degrees" = Stations.Returns (None, None).
Proof.
  split.
  - apply (proj2 (parse_location_outcomes "1.2.3 N 4 W")). split; [reflexivity | ].
    exists "1.2.3", "N"%char, "4", "W"%char. split; [vm_compute; reflexivity | ].
    left. vm_compute. reflexivity.
  - apply (proj1 (parse_location_outcomes "12 degrees")). vm_compute. reflexivity.
Defined.

(** ** The filter on station types *)

Lemma member_spec (s : string) (set : list string) :
  Stations.member s set = true <-> In s set.
Proof.
  unfold Stations.member. rewrite existsb_exists. split.
  - intros (x & Hx & E). apply String.eqb_eq in E. subst x. exact Hx.
  - intros H. exists s. split; [exact H | apply String.eqb_refl].
Qed.

(** X16: a station type passes the filter exactly when its lower-case form
    holds one of the words [buoy], [dart] and [rider], or is one of
    [6-meter nomad], [self-contained ocean observing payload] and
    [datawell]: the other twelve entries of [BUOY_TYPES] add nothing, and
    the empty type never passes. *)
Theorem buoy_type_test (ttype : string) :
  Stations.is_buoy_type ttype
  = (Stations.contains "buoy" (Stations.lower ttype)
     || Stations.contains "dart" (Stations.lower ttype)
     || Stations.contains "rider" (Stations.lower ttype)
     || Stations.member (Stations.lower ttype) OTHER_BUOY_TYPES).
Proof.
  unfold Stations.is_buoy_type.
  destruct (Stations.is_empty ttype) eqn:E.
  - apply is_empty_true in E. subst ttype. reflexivity.
  - cbn [orb].
    destruct (Stations.member (Stations.lower ttype) Stations.BUOY_TYPES) eqn:M.
    + cbn [negb]. apply member_spec in M. symmetry.
      unfold Stations.BUOY_TYPES in M. cbn [In] in M.
      repeat (destruct M as [M | M]; [rewrite <- M; reflexivity | ]).
      contradiction.
    + cbn [negb].
      assert (O : Stations.member (Stations.lower ttype) OTHER_BUOY_TYPES = false).
      { destruct (Stations.member (Stations.lower ttype) OTHER_BUOY_TYPES) eqn:O;
          [ | reflexivity].
        apply member_spec in O.
        assert (In (Stations.lower ttype) Stations.BUOY_TYPES).
        { unfold OTHER_BUOY_TYPES in O. unfold Stations.BUOY_TYPES. cbn [In] in *.
          intuition auto. }
        apply member_spec in H. congruence. }
      rewrite O, orb_false_r.
      destruct (Stations.contains "buoy" (Stations.lower ttype)),
        (Stations.contains "dart" (Stations.lower ttype)),
        (Stations.contains "rider" (Stations.lower ttype)); reflexivity.
Qed.

(** ** The loop over the lines of the table *)

Lemma parse_location_numbers (loc : string) (lat lon : float) :
  Stations.parse_location loc = Stations.Returns (Some lat, Some lon) ->
  lat <> Float.nan /\ lon <> Float.nan.
Proof.
  intros H.
  destruct (Stations.match_location loc) as [[[[g1 h1] g3] h3] | ] eqn:Hm.
  - destruct (pattern_groups _ _ _ _ _ Hm) as (A1 & A3 & _ & _).
    rewrite (parse_location_matched _ _ _ _ _ Hm) in H.
    destruct (Float.of_string g1) as [x | ] eqn:Hx; [ | discriminate].
    destruct (Float.of_string g3) as [y | ] eqn:Hy; [ | discriminate].
    injection H as <- <-.
    pose proof (of_string_coordinate _ _ A1 Hx) as Sx.
    pose proof (of_string_coordinate _ _ A3 Hy) as Sy.
    rewrite literal_one, literal_minus_one. split; intros E.
    + pose proof (mul_signed x (if Ascii.eqb h1 "N" then false else true)
                    4503599627370496 (-52) Sx) as S.
      destruct (Ascii.eqb h1 "N"); rewrite E in S; exact S.
    + pose proof (mul_signed y (if Ascii.eqb h3 "E" then false else true)
                    4503599627370496 (-52) Sy) as S.
      destruct (Ascii.eqb h3 "E"); rewrite E in S; exact S.
  - unfold Stations.parse_location in H. rewrite Hm in H. discriminate.
Qed.

Lemma parse_location_raises (loc : string) (e : Stations.error) :
  Stations.parse_location loc = Stations.Raises e -> e = Stations.ValueError.
Proof.
  unfold Stations.parse_location, Stations.to_float.
  destruct (Stations.match_location loc) as [[[[g1 h1] g3] h3] | ]; [ | discriminate].
  destruct (Float.of_string g1); cbn [Stations.and_then]; [ | congruence].
  destruct (Float.of_string g3); cbn [Stations.and_then]; [discriminate | congruence].
Qed.

Lemma buoy_type_not_empty (ttype : string) :
  Stations.is_buoy_type ttype = true -> ttype <> EmptyString.
Proof. intros H ->. discriminate H. Qed.

Lemma rstrip_idempotent (s : string) : Str.rstrip (Str.rstrip s) = Str.rstrip s.
Proof.
  induction s as [ | c s IH]; [reflexivity | ].
  rewrite rstrip_cons. destruct (Str.rstrip s) as [ | c' r] eqn:E.
  - destruct (Str.isspace c) eqn:Hc; [reflexivity | ].
    rewrite rstrip_cons. cbn [Str.rstrip]. rewrite Hc. reflexivity.
  - rewrite rstrip_cons, IH. reflexivity.
Qed.

Lemma lstrip_starts (s : string) :
  Str.lstrip s = EmptyString \/ starts_clean (Str.lstrip s) = true.
Proof.
  induction s as [ | c s IH]; [left; reflexivity | ].
  cbn [Str.lstrip]. destruct (Str.isspace c) eqn:Hc; [exact IH | ].
  right. cbn [starts_clean]. rewrite Hc. reflexivity.
Qed.

Lemma rstrip_keeps_start (s : string) :
  starts_clean s = true -> starts_clean (Str.rstrip s) = true.
Proof.
  destruct s as [ | c s]; [discriminate | ].
  cbn [starts_clean]. intros Hc. rewrite rstrip_cons.
  apply negb_true_iff in Hc.
  destruct (Str.rstrip s); [rewrite Hc | ]; cbn [starts_clean]; rewrite Hc; reflexivity.
Qed.

(** Stripping a stripped text changes nothing. *)
Lemma strip_idempotent (s : string) : Str.strip (Str.strip s) = Str.strip s.
Proof.
  unfold Str.strip. destruct (lstrip_starts s) as [E | E].
  - rewrite E. reflexivity.
  - rewrite (lstrip_clean _ (rstrip_keeps_start _ E)). apply rstrip_idempotent.
Qed.

(** One turn of the loop: nothing is removed and at most one station is
    appended, which satisfies [station_ok]; nothing but a [ValueError] is
    raised. *)
Lemma add_station_cases (stations : list Stations.Station) (line : string) :
  match Stations.add_station stations line with
  | Stations.Returns out =>
      out = stations \/ exists st, out = stations ++ [st] /\ station_ok st
  | Stations.Raises e => e = Stations.ValueError
  end.
Proof.
  unfold Stations.add_station.
  destruct (String.prefix "#" line || Stations.is_empty (Str.strip line));
    [left; reflexivity | ].
  destruct (Stations.split_on "|" line)
    as [ | p0 [ | p1 [ | p2 [ | p3 [ | p4 [ | p5 [ | p6 rest]]]]]]];
    try (left; reflexivity).
  cbn [List.length Nat.ltb Nat.leb Stations.item nth_error Stations.and_then].
  destruct (Stations.is_buoy_type (Str.strip p2)) eqn:T; cbn [negb];
    [ | left; reflexivity].
  unfold Stations.split_on.
  destruct (Stations.split_at "(" (Str.strip p6)) as [before pieces].
  cbn [Stations.item nth_error Stations.and_then].
  destruct (Stations.parse_location (Str.strip before)) as [[[lat | ] [lon | ]] | e] eqn:PL;
    cbn [Stations.and_then]; try (left; reflexivity).
  - destruct (Float.eqb lat Float.zero && Float.eqb lon Float.zero);
      [left; reflexivity | ].
    right. eexists. split; [reflexivity | ].
    destruct (parse_location_numbers _ _ _ PL) as [Hlat Hlon].
    unfold station_ok.
    cbn [Stations.type Stations.name Stations.id Stations.lat Stations.lon].
    repeat split.
    + exact T.
    + exact (buoy_type_not_empty _ T).
    + destruct (Str.strip p4); cbn [Stations.is_empty]; [intros H; exact H | discriminate].
    + apply strip_idempotent.
    + destruct (Str.strip p4) eqn:E; cbn [Stations.is_empty];
        [ | rewrite <- E]; apply strip_idempotent.
    + apply strip_idempotent.
    + apply round_not_nan. exact Hlat.
    + apply round_not_nan. exact Hlon.
  - exact (parse_location_raises _ _ PL).
Qed.

Lemma each_line_cases (lines : list string) :
  forall stations,
    match Stations.each_line lines stations with
    | Stations.Returns out =>
        exists added,
          out = stations ++ added /\ Forall station_ok added
          /\ List.length added <= List.length lines
    | Stations.Raises e => e = Stations.ValueError
    end.
Proof.
  induction lines as [ | line lines IH]; intros stations.
  - exists []. rewrite app_nil_r. repeat split; [constructor | apply Nat.le_refl].
  - cbn [Stations.each_line].
    pose proof (add_station_cases stations line) as H.
    destruct (Stations.add_station stations line) as [out | e];
      cbn [Stations.and_then]; [ | exact H].
    specialize (IH out).
    destruct (Stations.each_line lines out) as [final | e]; [ | exact IH].
    destruct IH as (added & -> & Hok & Hlen).
    destruct H as [-> | (st & -> & Hst)].
    + exists added. repeat split; [exact Hok | cbn [List.length]; lia].
    + exists (st :: added). rewrite <- app_assoc. repeat split.
      * constructor; assumption.
      * cbn [List.length]. lia.
Qed.

(** X17: every station of a list that is returned has a type that is not
    empty and passes the filter, a name that is empty only when its
    identifier is, an identifier, a name and a type without white space at
    either end, and coordinates that are numbers; there are at most as many
    stations as the table has lines. *)
Theorem stations_are_well_formed (text : string) (stations : list Stations.Station) :
  Stations.stations_of text = Stations.Returns stations ->
  Forall station_ok stations
  /\ List.length stations <= List.length (Str.splitlines text).
Proof.
  unfold Stations.stations_of. intros H.
  pose proof (each_line_cases (Str.splitlines text) []) as C. rewrite H in C.
  destruct C as (added & -> & Hok & Hlen). split; assumption.
Qed.

(** X18: whatever the table, building the list raises nothing but the
    [ValueError] of a location that is not a number: no field is read out of
    range. *)
Theorem stations_raise_value_error_only (text : string) (e : Stations.error) :
  Stations.stations_of text = Stations.Raises e -> e = Stations.ValueError.
Proof.
  unfold Stations.stations_of. intros H.
  pose proof (each_line_cases (Str.splitlines text) []) as C. rewrite H in C. exact C.
Qed.

Lemma add_station_skips (stations : list Stations.Station) (line : string) :
  skipped_line line -> Stations.add_station stations line = Stations.Returns stations.
Proof.
  unfold skipped_line, Stations.add_station. intros [H | [H | H]].
  - rewrite H. reflexivity.
  - rewrite H. rewrite orb_true_r. reflexivity.
  - apply Nat.ltb_lt in H. rewrite H.
    destruct (String.prefix "#" line || Stations.is_empty (Str.strip line)); reflexivity.
Qed.

(** X19: a first line that is a comment, blank, or of fewer than 7 fields
    changes nothing: the list built from the table is the one built from the
    lines after it. *)
Theorem skipped_line_changes_nothing (line rest : string) :
  no_linebreak line = true ->
  skipped_line line ->
  Stations.stations_of (line ++ LF ++ rest) = Stations.stations_of rest.
Proof.
  intros Hl Hs. unfold Stations.stations_of.
  rewrite (splitlines_line _ _ Hl). cbn [Stations.each_line].
  rewrite (add_station_skips _ _ Hs). reflexivity.
Qed.

(** ** The properties above on the sample inputs *)

Lemma reading_depends_on_15_fields_example :
  parse_stdmet stdmet_two_rows = parse_stdmet stdmet_other_tail.
Proof.
  eapply (reading_depends_on_15_fields stdmet_two_rows stdmet_other_tail);
    vm_compute; reflexivity.
Defined.

Lemma temperatures_need_columns_example :
  exists r,
    parse_stdmet stdmet_13_fields = Ok (Some r)
    /\ airTemp_C r = None /\ waterTemp_C r = None.
Proof.
  destruct (temperatures_need_columns stdmet_13_fields STDMET_HEADER STDMET_UNITS
              "2024 05 06 07 08 210 5.0 7.0 1.2 9 5.1 123 1015.2" [])
    as (r & Hr & Ha & Hw).
  - vm_compute. reflexivity.
  - vm_compute. lia.
  - exists r. split; [exact Hr | split; [exact Ha | exact Hw]].
Defined.

Lemma reading_holds_no_sentinel_example :
  ~ is_sentinel (Float.literal "1.2").
Proof.
  eapply (reading_holds_no_sentinel stdmet_two_rows).
  - vm_compute. reflexivity.
  - left. vm_compute. reflexivity.
Defined.

Lemma buoy_fetch_fails_only_on_observation_example :
  (exists r,
      fst (fst (fetch_buoy sample_fetch_all tt)) = Done r
      /\ stdmet r = reading_of_line stdmet_two_rows 2
      /\ parse_data_spec spec_two swdir_two = Ok (spectral r)
      /\ List.length (spectral r) = 2)
  /\ (exists r,
        fst (fst (fetch_buoy sample_fetch tt)) = Done r /\ spectral r = []).
Proof.
  split.
  - destruct (proj2 (buoy_fetch_fails_only_on_observation unit sample_fetch_all tt)
                stdmet_two_rows tt eq_refl) as (r & Hr & _ & Hs & _ & _ & Hb).
    exists r. split; [exact Hr | split; [exact Hs | ]].
    specialize (Hb spec_two tt swdir_two tt eq_refl eq_refl).
    split; [exact Hb | ].
    assert (E : parse_data_spec spec_two swdir_two
                = Ok (zip_present (frequency_series spec_two) (value_series spec_two)
                        (value_series swdir_two)))
      by (vm_compute; reflexivity).
    rewrite E in Hb. injection Hb as <-. vm_compute. reflexivity.
  - destruct (proj2 (buoy_fetch_fails_only_on_observation unit sample_fetch tt)
                stdmet_two_rows tt eq_refl) as (r & Hr & _ & _ & _ & He & _).
    exists r. split; [exact Hr | ].
    exact (He spec_two tt tt eq_refl eq_refl).
Defined.

Lemma stations_are_well_formed_example :
  Forall station_ok [station_44097]
  /\ List.length [station_44097] <= List.length (Str.splitlines station_table).
Proof.
  apply (stations_are_well_formed station_table [station_44097]).
  vm_compute. reflexivity.
Defined.

Lemma stations_raise_value_error_only_example :
  exists e,
    Stations.stations_of station_table_two_dots = Stations.Raises e
    /\ e = Stations.ValueError.
Proof.
  exists Stations.ValueError. split; [vm_compute; reflexivity | ].
  apply (stations_raise_value_error_only station_table_two_dots Stations.ValueError).
  vm_compute. reflexivity.
Defined.

Lemma skipped_line_changes_nothing_example :
  Stations.stations_of (TABLE_HEADER ++ LF ++ unlines [TABLE_BUOY])
  = Stations.stations_of (unlines [TABLE_BUOY]).
Proof.
  apply (skipped_line_changes_nothing TABLE_HEADER (unlines [TABLE_BUOY])).
  - vm_compute. reflexivity.
  - left. vm_compute. reflexivity.
Defined.
